(** * Slander detection demo: a shallow embedding of the analysis pipeline

    Sources embedded here:
    - src/analysis/slander_analyzer.py  (SlanderAnalysisResult, OverallAnalysis,
      SlanderAnalyzer.calculate_overall_analysis, analyze_multiple_texts)
    - src/tools/query_generator.py      (TwitterSearchQuery, SearchQueries,
      QueryGenerator._clean_yaml_response, generate_queries)
    - src/tools/twitter_tool.py          (TwitterSearchParams and validate_dates)

    Python text is modelled as Rocq [string]: a sequence of characters, each
    character one [ascii] (code points 0..255).  Python floats are Rocq's
    primitive binary64 floats [float] (IEEE 754 double precision with
    round-to-nearest-even, as CPython's [float]); exact rationals [Q] appear
    only as the real value of a float.  Library behaviour (yaml.safe_load,
    pydantic's string to float / datetime coercions) and the built-in [sum]
    over floats, whose algorithm depends on the Python version, enter as
    Section variables. *)

From Stdlib Require Import Floats.
From Stdlib Require Import Bool Arith Lia List ZArith QArith Strings.String Strings.Ascii.
Import ListNotations.
Open Scope nat_scope.
Open Scope string_scope.
Set Warnings "-register-all".
Set Warnings "-inexact-float".

(** ** Python string primitives *)
Module PyStr.

(** [starts_with p s]: [s.startswith(p)]. *)
Fixpoint starts_with (p s : string) : bool :=
  match p, s with
  | EmptyString, _ => true
  | String c p', String d s' => Ascii.eqb c d && starts_with p' s'
  | String _ _, EmptyString => false
  end.

(** Scan of [str.replace(old, new)] for a non-empty [old]: occurrences are
    found left to right and do not overlap; [skip] counts the characters of a
    matched occurrence that are still to be consumed. *)
Fixpoint replace_scan (old new : string) (skip : nat) (s : string) : string :=
  match s with
  | EmptyString => EmptyString
  | String c s' =>
      match skip with
      | S k => replace_scan old new k s'
      | O =>
          if starts_with old s
          then new ++ replace_scan old new (pred (String.length old)) s'
          else String c (replace_scan old new 0 s')
      end
  end.

(** [str.replace] with an empty [old] inserts [new] around every character. *)
Fixpoint insert_everywhere (new s : string) : string :=
  match s with
  | EmptyString => new
  | String c s' => new ++ String c (insert_everywhere new s')
  end.

(** [s.replace(old, new)]. *)
Definition replace (s old new : string) : string :=
  match old with
  | EmptyString => insert_everywhere new s
  | String _ _ => replace_scan old new 0 s
  end.

(** [str.isspace] on one character (Unicode whitespace within 0..255). *)
Definition is_space (c : ascii) : bool :=
  let n := nat_of_ascii c in
  (((9 <=? n) && (n <=? 13)) || ((28 <=? n) && (n <=? 32))
   || (n =? 133) || (n =? 160))%nat.

(** [s.lstrip()]. *)
Fixpoint lstrip (s : string) : string :=
  match s with
  | EmptyString => EmptyString
  | String c s' => if is_space c then lstrip s' else s
  end.

(** [s.rstrip()]. *)
Fixpoint rstrip (s : string) : string :=
  match s with
  | EmptyString => EmptyString
  | String c s' =>
      match rstrip s' with
      | EmptyString => if is_space c then EmptyString else String c EmptyString
      | r => String c r
      end
  end.

(** [s.strip()]. *)
Definition strip (s : string) : string := rstrip (lstrip s).

(** [sub in s] for a non-empty [sub]. *)
Fixpoint contains (sub s : string) : bool :=
  match s with
  | EmptyString => starts_with sub s
  | String _ s' => starts_with sub s || contains sub s'
  end.

End PyStr.

Definition fence_yaml : string := "```yaml".
Definition fence : string := "```".

(** The fence-cleaning step: [QueryGenerator._clean_yaml_response], and the
    same expression inlined in [calculate_overall_analysis] and
    [analyze_multiple_texts]:
    [s.replace("```yaml", "").replace("```", "").strip()]. *)
Definition clean_yaml_response (s : string) : string :=
  PyStr.strip (PyStr.replace (PyStr.replace s fence_yaml "") fence "").

(** ** Calendar dates (the date part of Python's [date] / [datetime]) *)
Record date : Type := mk_date { year : Z; month : Z; day : Z }.

(** Chronological order [a > b] of two dates. *)
Definition date_gt (a b : date) : bool :=
  (year b <? year a)%Z
  || ((year a =? year b)%Z && (month b <? month a)%Z)
  || ((year a =? year b)%Z && (month a =? month b)%Z && (day b <? day a)%Z).

(** ** Python values, as produced by [yaml.safe_load] *)
Inductive pyval : Type :=
| PNone
| PBool (b : bool)
| PInt (z : Z)
| PFloat (f : float)
| PStr (s : string)
| PDate (d : date)          (* datetime.date *)
| PDateTime (d : date)      (* datetime.datetime (time of day not modelled) *)
| PList (xs : list pyval)
| PDict (kvs : list (pyval * pyval)).

(** Python exceptions, by class. *)
Inductive exc : Type :=
| ValueError | TypeError | AttributeError | KeyError | ValidationError
| YAMLError | InvokeError | ZeroDivisionError.

(** A computation that returns a value or raises. *)
Inductive result (A : Type) : Type :=
| Ok (a : A)
| Raise (e : exc).
Arguments Ok {A} a.
Arguments Raise {A} e.

Definition bind {A B} (m : result A) (f : A -> result B) : result B :=
  match m with Ok a => f a | Raise e => Raise e end.
Notation "'let*' x ':=' m 'in' f" := (bind m (fun x => f))
  (at level 200, x name, m at level 100, f at level 200).

Definition is_raise {A} (m : result A) : bool :=
  match m with Ok _ => false | Raise _ => true end.

(** [all(f(x) for x in xs)] with exceptions propagating: a list comprehension /
    append loop over [xs]. *)
Fixpoint map_result {A B} (f : A -> result B) (xs : list A) : result (list B) :=
  match xs with
  | [] => Ok []
  | x :: xs' => let* y := f x in let* ys := map_result f xs' in Ok (y :: ys)
  end.

Module Py.

(** [bool(v)]. *)
Definition truthy (v : pyval) : bool :=
  match v with
  | PNone => false
  | PBool b => b
  | PInt z => negb (z =? 0)%Z
  | PFloat f => negb (f =? 0)%float
  | PStr s => negb (String.eqb s "")
  | PDate _ | PDateTime _ => true
  | PList xs => match xs with [] => false | _ => true end
  | PDict kvs => match kvs with [] => false | _ => true end
  end.

(** [v == k] for a string [k]: only a [str] equals a [str]. *)
Definition is_str (k : string) (v : pyval) : bool :=
  match v with PStr s => String.eqb s k | _ => false end.

Fixpoint lookup (k : string) (kvs : list (pyval * pyval)) : option pyval :=
  match kvs with
  | [] => None
  | (k', v) :: kvs' => if is_str k k' then Some v else lookup k kvs'
  end.

(** [k in v] for a string [k]. *)
Definition contains_key (k : string) (v : pyval) : result bool :=
  match v with
  | PDict kvs => Ok (existsb (is_str k) (map fst kvs))
  | PList xs => Ok (existsb (is_str k) xs)
  | PStr s => Ok (PyStr.contains k s)
  | _ => Raise TypeError
  end.

(** [v[k]] for a string [k]. *)
Definition getitem (v : pyval) (k : string) : result pyval :=
  match v with
  | PDict kvs => match lookup k kvs with Some x => Ok x | None => Raise KeyError end
  | _ => Raise TypeError
  end.

(** [v.get(k, default)]: only dicts have [.get]. *)
Definition get (v : pyval) (k : string) (default : pyval) : result pyval :=
  match v with
  | PDict kvs => match lookup k kvs with Some x => Ok x | None => Ok default end
  | _ => Raise AttributeError
  end.

(** [v.setdefault(k, default)] as a mutation of the dict [v]. *)
Definition setdefault (v : pyval) (k : string) (default : pyval) : result pyval :=
  match v with
  | PDict kvs =>
      match lookup k kvs with
      | Some _ => Ok v
      | None => Ok (PDict (kvs ++ [(PStr k, default)]))
      end
  | _ => Raise AttributeError
  end.

(** [for x in v]: the items iterated. *)
Definition iter (v : pyval) : result (list pyval) :=
  match v with
  | PList xs => Ok xs
  | PDict kvs => Ok (map fst kvs)
  | PStr s => Ok (map (fun c => PStr (String c EmptyString)) (list_ascii_of_string s))
  | _ => Raise TypeError
  end.

(** [f( **v )]: the keyword arguments; keys must be strings. *)
Fixpoint str_keys (kvs : list (pyval * pyval)) : result (list (string * pyval)) :=
  match kvs with
  | [] => Ok []
  | (PStr k, x) :: kvs' => let* r := str_keys kvs' in Ok ((k, x) :: r)
  | _ :: _ => Raise TypeError
  end.

Definition kwargs (v : pyval) : result (list (string * pyval)) :=
  match v with PDict kvs => str_keys kvs | _ => Raise TypeError end.

(** Python's built-in [sum] over a non-empty list of floats, start 0, up to
    CPython 3.11: [((0 + x0) + x1) + ...], each addition rounded ([0 + x0]
    is the float addition [0.0 + x0] of [float.__radd__]). *)
Definition sum_fold (xs : list float) : float := fold_left PrimFloat.add xs 0%float.

(** The float loop of [builtin_sum_impl] from CPython 3.12 on: Neumaier's
    compensated summation; [f] is [f_result] and [c] the compensation, added
    at the end when it is non-zero and finite. *)
Fixpoint neumaier_loop (f c : float) (xs : list float) : float :=
  match xs with
  | [] => if negb (c =? 0)%float && is_finite c then (f + c)%float else f
  | x :: xs' =>
      let t := (f + x)%float in
      let c' := if (abs x <=? abs f)%float then (c + ((f - t) + x))%float
                else (c + ((x - t) + f))%float in
      neumaier_loop t c' xs'
  end.

(** Python's built-in [sum] over a non-empty list of floats, start 0, from
    CPython 3.12 on: the int start plus the first item gives the float
    [0.0 + x0], then the compensated loop runs over the other items.  (The
    sum of an empty list is the int 0; it is not used on empty lists here.) *)
Definition sum_neumaier (xs : list float) : float :=
  match xs with
  | [] => 0%float
  | x0 :: xs' => neumaier_loop (0 + x0)%float 0%float xs'
  end.

(** [float(z)] for an int [z]: the nearest binary64 (ties to even); [None]
    when it overflows (Python raises OverflowError). *)
Definition float_of_int (z : Z) : option float :=
  match binary_normalize prec emax z 0 false with
  | S754_infinity _ => None
  | f => Some (SF2Prim f)
  end.

(** The float conversion of [len(xs)] in [float / len(xs)]: the nearest
    binary64 of the length.  A length is at most [sys.maxsize] < 2^63, far
    below the overflow threshold 2^1024, so no overflow branch is needed. *)
Definition float_of_len (n : nat) : float :=
  SF2Prim (binary_normalize prec emax (Z.of_nat n) 0 false).

(** Float division [a / b]: ZeroDivisionError when [b == 0.0]. *)
Definition div (a b : float) : result float :=
  if (b =? 0)%float then Raise ZeroDivisionError else Ok (a / b)%float.

End Py.

(** ** The model collaborator

    The reply of the chat model to one [self.llm.invoke(...)] call.  The
    collaborator is any function from the index of the call to its reply. *)
Inductive llm_reply : Type :=
| InvokeRaises                (* invoke raises *)
| NoResponse                  (* invoke returns a falsy response *)
| Reply (content : string).   (* response.content *)

(** [response = self.llm.invoke(...)];
    [if not response or not response.content: raise ValueError(...)]. *)
Definition response_content (r : llm_reply) : result string :=
  match r with
  | InvokeRaises => Raise InvokeError
  | NoResponse => Raise ValueError
  | Reply c => if String.eqb c "" then Raise ValueError else Ok c
  end.

(** The bounded retry loop shared by [generate_queries] and
    [analyze_multiple_texts]:
    [for attempt in range(max_retries): try: ... return ...
     except Exception: if attempt < max_retries - 1: continue
                       else: return fallback].
    Returns the value returned ([None] if the loop is left without a
    [return]) and the number of attempts run, i.e. of model invocations. *)
Fixpoint retry_from {A} (body : nat -> result A) (fallback : A)
    (max_retries attempt remaining : nat) : option A * nat :=
  match remaining with
  | O => (None, O)
  | S r =>
      match body attempt with
      | Ok a => (Some a, 1)
      | Raise _ =>
          if Nat.ltb attempt (max_retries - 1)
          then let (res, n) := retry_from body fallback max_retries (S attempt) r in
               (res, S n)
          else (Some fallback, 1)
      end
  end.

Definition retry {A} (body : nat -> result A) (fallback : A) (max_retries : nat) :=
  retry_from body fallback max_retries 0 max_retries.

(** ** src/analysis/slander_analyzer.py *)
Record SlanderAnalysisResult : Type := mk_SlanderAnalysisResult {
  risk_score : float;
  context_analysis : string;
  confidence_score : float
}.

Record OverallAnalysis : Type := mk_OverallAnalysis {
  combined_risk_score : float;
  pattern_analysis : string;
  cross_references : string
}.

(** A content item: [Dict[str, str]]. *)
Definition text_item : Type := list (string * string).

Section Analyzer.

(** [yaml.safe_load] *)
Variable safe_load : string -> result pyval.
(** pydantic's lax conversion of a [str] input to a [float] field *)
Variable float_of_str : string -> option float.
(** Python's built-in [sum] of a non-empty list of floats: [Py.sum_fold] up
    to CPython 3.11, [Py.sum_neumaier] from 3.12 on. *)
Variable sum_floats : list float -> float.

(** pydantic validation of a [float] field (lax mode): a float as is, an int
    converted to the nearest float (rejected when it overflows), a bool as
    1.0 or 0.0, a string through [float_of_str]. *)
Definition as_float (v : pyval) : result float :=
  match v with
  | PFloat f => Ok f
  | PInt z => match Py.float_of_int z with Some f => Ok f | None => Raise ValidationError end
  | PBool b => Ok (if b then 1 else 0)%float
  | PStr s => match float_of_str s with Some f => Ok f | None => Raise ValidationError end
  | _ => Raise ValidationError
  end.

(** pydantic validation of a [str] field. *)
Definition as_str (v : pyval) : result string :=
  match v with PStr s => Ok s | _ => Raise ValidationError end.

Fixpoint kw_lookup (k : string) (kw : list (string * pyval)) : option pyval :=
  match kw with
  | [] => None
  | (k', v) :: kw' => if String.eqb k k' then Some v else kw_lookup k kw'
  end.

(** [SlanderAnalysisResult( **v)]: extra keys (content_index, language) are
    ignored, the three fields are required. *)
Definition mk_slander_result (v : pyval) : result SlanderAnalysisResult :=
  let* kw := Py.kwargs v in
  match kw_lookup "risk_score" kw, kw_lookup "context_analysis" kw,
        kw_lookup "confidence_score" kw with
  | Some r, Some c, Some f =>
      let* r' := as_float r in
      let* c' := as_str c in
      let* f' := as_float f in
      Ok (mk_SlanderAnalysisResult r' c' f')
  | _, _, _ => Raise ValidationError
  end.

(** Lines 38-44: the confidence-weighted mean, computed before the [try], in
    float arithmetic. *)
Definition combined_risk (results : list SlanderAnalysisResult) : result float :=
  let total_weight := sum_floats (map confidence_score results) in
  if (total_weight =? 0)%float
  then Py.div (sum_floats (map risk_score results)) (Py.float_of_len (List.length results))
  else Py.div (sum_floats (map (fun r => risk_score r * confidence_score r)%float results))
              total_weight.

(** Lines 78-113: the body of the [try] of [calculate_overall_analysis]. *)
Definition narrative_attempt (combined : float) (reply : llm_reply) : result OverallAnalysis :=
  let* content := response_content reply in
  let yaml_str := clean_yaml_response content in
  if String.eqb yaml_str "" then Raise ValueError else
  let* analysis_dict := safe_load yaml_str in
  if negb (Py.truthy analysis_dict) then Raise ValueError else
  let* pa := Py.get analysis_dict "pattern_analysis"
               (PStr "No pattern analysis available.") in
  let* cr := Py.get analysis_dict "cross_references"
               (PStr "No cross-reference analysis available.") in
  let* pa' := as_str pa in
  let* cr' := as_str cr in
  Ok (mk_OverallAnalysis combined pa' cr').

(** [SlanderAnalyzer.calculate_overall_analysis]; [reply] is the model's reply
    to the one call made.  Returns the outcome and the number of model
    invocations. *)
Definition calculate_overall_analysis (results : list SlanderAnalysisResult)
    (reply : llm_reply) : result OverallAnalysis * nat :=
  match results with
  | [] => (Ok (mk_OverallAnalysis 0%float "No content analyzed." "No content analyzed."), O)
  | _ :: _ =>
      match combined_risk results with
      | Raise e => (Raise e, O)
      | Ok combined =>
          match narrative_attempt combined reply with
          | Ok oa => (Ok oa, 1)
          | Raise _ =>
              (Ok (mk_OverallAnalysis combined "Error generating pattern analysis."
                     "Error generating cross-reference analysis."), 1)
          end
      end
  end.

(** Lines 212-232 of [analyze_multiple_texts]: the entries of
    [analysis_dict["content_analyses"]] in the model's order. *)
Definition content_analyses_of (reply : llm_reply) : result (list pyval) :=
  let* content := response_content reply in
  let yaml_str := clean_yaml_response content in
  if String.eqb yaml_str "" then Raise ValueError else
  let* analysis_dict := safe_load yaml_str in
  if negb (Py.truthy analysis_dict) then Raise ValueError else
  let* present := Py.contains_key "content_analyses" analysis_dict in
  if negb present then Raise ValueError else
  let* ca := Py.getitem analysis_dict "content_analyses" in
  Py.iter ca.

(** Lines 210-239: one attempt. *)
Definition analyze_attempt (reply : llm_reply) : result (list SlanderAnalysisResult) :=
  let* items := content_analyses_of reply in
  map_result mk_slander_result items.

(** Lines 251-258: the degraded value returned for each item. *)
Definition degraded_result : SlanderAnalysisResult :=
  mk_SlanderAnalysisResult 0%float "Analysis failed after multiple attempts. Please try again."
    0%float.

(** [SlanderAnalyzer.analyze_multiple_texts(texts, target_person)]; [llm i]
    is the reply to the [i]-th invocation (the prompt built from [texts] and
    [target_person] is the same on every attempt). *)
Definition analyze_multiple_texts (llm : nat -> llm_reply) (texts : list text_item)
    (target_person : option string) : option (list SlanderAnalysisResult) * nat :=
  retry (fun attempt => analyze_attempt (llm attempt))
        (map (fun _ => degraded_result) texts) 3.

End Analyzer.

(** ** src/tools/query_generator.py *)
Record TwitterSearchQuery : Type := mk_TwitterSearchQuery {
  query : string;
  description : string;
  section : option string;
  start_date : option date;
  end_date : option date;
  language : option string
}.

Record YouTubeSearchQuery : Type := mk_YouTubeSearchQuery {
  yt_query : string;          (* YouTubeSearchQuery.query *)
  yt_description : string     (* YouTubeSearchQuery.description *)
}.

Record SearchQueries : Type := mk_SearchQueries {
  twitter : list TwitterSearchQuery;
  youtube : list YouTubeSearchQuery
}.

Definition str_in (s : string) (xs : list string) : bool :=
  existsb (String.eqb s) xs.

(** [TwitterSearchQuery.validate_section]:
    [if v and v not in ["top", "latest"]: return "latest"; return v]. *)
Definition validate_section (v : option string) : option string :=
  match v with
  | Some s => if negb (String.eqb s "") && negb (str_in s ["top"; "latest"])
              then Some "latest" else v
  | None => v
  end.

(** [TwitterSearchQuery.validate_language]:
    [if v and len(v) != 2: return "ja"; return v]. *)
Definition validate_language (v : option string) : option string :=
  match v with
  | Some s => if negb (String.eqb s "") && negb (Nat.eqb (String.length s) 2)
              then Some "ja" else v
  | None => v
  end.

(** An [Optional[str] = Field(None)] field with an (after) field validator;
    an absent field takes the default [None] and is not validated. *)
Definition opt_str_field (validator : option string -> option string)
    (v : option pyval) : result (option string) :=
  match v with
  | None => Ok None
  | Some PNone => Ok (validator None)
  | Some (PStr s) => Ok (validator (Some s))
  | Some _ => Raise ValidationError
  end.

Section QueryGenerator.

(** [yaml.safe_load] *)
Variable safe_load : string -> result pyval.
(** pydantic's lax conversion of a non-[datetime] input to a [datetime] field *)
Variable datetime_of : pyval -> option date.

(** An [Optional[datetime] = Field(None)] field. *)
Definition opt_datetime_field (v : option pyval) : result (option date) :=
  match v with
  | None | Some PNone => Ok None
  | Some (PDateTime d) => Ok (Some d)
  | Some x => match datetime_of x with Some d => Ok (Some d) | None => Raise ValidationError end
  end.

(** Validation of a [TwitterSearchQuery] field value (a dict). *)
Definition mk_twitter_query (v : pyval) : result TwitterSearchQuery :=
  match v with
  | PDict kvs =>
      match Py.lookup "query" kvs, Py.lookup "description" kvs with
      | Some q, Some d =>
          let* q' := as_str q in
          let* d' := as_str d in
          let* sec := opt_str_field validate_section (Py.lookup "section" kvs) in
          let* sd := opt_datetime_field (Py.lookup "start_date" kvs) in
          let* ed := opt_datetime_field (Py.lookup "end_date" kvs) in
          let* lang := opt_str_field validate_language (Py.lookup "language" kvs) in
          Ok (mk_TwitterSearchQuery q' d' sec sd ed lang)
      | _, _ => Raise ValidationError
      end
  | _ => Raise ValidationError
  end.

(** Validation of a [YouTubeSearchQuery] field value (a dict). *)
Definition mk_youtube_query (v : pyval) : result YouTubeSearchQuery :=
  match v with
  | PDict kvs =>
      match Py.lookup "query" kvs, Py.lookup "description" kvs with
      | Some q, Some d => let* q' := as_str q in let* d' := as_str d in
                          Ok (mk_YouTubeSearchQuery q' d')
      | _, _ => Raise ValidationError
      end
  | _ => Raise ValidationError
  end.

(** [SearchQueries( **queries_dict)]. *)
Definition mk_search_queries (v : pyval) : result SearchQueries :=
  let* kw := Py.kwargs v in
  match kw_lookup "twitter" kw, kw_lookup "youtube" kw with
  | Some (PList tw), Some (PList yt) =>
      let* tw' := map_result mk_twitter_query tw in
      let* yt' := map_result mk_youtube_query yt in
      Ok (mk_SearchQueries tw' yt')
  | _, _ => Raise ValidationError
  end.

(** Writes [v] as the value of the existing key [k] of a dict. *)
Fixpoint dict_set (k : string) (v : pyval) (kvs : list (pyval * pyval)) :
    list (pyval * pyval) :=
  match kvs with
  | [] => []
  | (k', x) :: kvs' => if Py.is_str k k' then (k', v) :: kvs' else (k', x) :: dict_set k v kvs'
  end.

(** Lines 163-192: one attempt of [generate_queries]; [default_dates] is
    [(start_date, end_date)] of [_get_default_dates()].  The [setdefault]
    calls mutate the dicts of the [twitter] list in place; the mutated list
    is the one [SearchQueries( **queries_dict)] reads. *)
Definition generate_attempt (default_dates : string * string) (reply : llm_reply) :
    result SearchQueries :=
  let* content := response_content reply in
  let yaml_str := clean_yaml_response content in
  if String.eqb yaml_str "" then Raise ValueError else
  let* queries_dict := safe_load yaml_str in
  if negb (Py.truthy queries_dict) then Raise ValueError else
  let* has_twitter := Py.contains_key "twitter" queries_dict in
  if negb has_twitter then Raise ValueError else
  let* has_youtube := Py.contains_key "youtube" queries_dict in
  if negb has_youtube then Raise ValueError else
  let* tw := Py.get queries_dict "twitter" (PList []) in
  let* items := Py.iter tw in
  let* items' := map_result (fun q =>
                   let* q1 := Py.setdefault q "start_date" (PStr (fst default_dates)) in
                   Py.setdefault q1 "end_date" (PStr (snd default_dates))) items in
  let queries_dict' :=
    match tw, queries_dict with
    | PList _, PDict kvs => PDict (dict_set "twitter" (PList items') kvs)
    | _, _ => queries_dict
    end in
  mk_search_queries queries_dict'.

(** [QueryGenerator.generate_queries(natural_language_input)]; [llm i] is the
    reply to the [i]-th invocation. *)
Definition generate_queries (llm : nat -> llm_reply) (natural_language_input : string)
    (default_dates : string * string) : option SearchQueries * nat :=
  retry (fun attempt => generate_attempt default_dates (llm attempt))
        (mk_SearchQueries [] []) 3.

End QueryGenerator.

(** ** src/tools/twitter_tool.py *)
Module TwitterTool.

Record TwitterSearchParams : Type := mk_TwitterSearchParams {
  query : string;
  section : option string;
  min_retweets : option Z;
  min_likes : option Z;
  min_replies : option Z;
  limit : option Z;
  start_date : option string;
  end_date : option string;
  language : option string;
  continuation_token : option string
}.

Definition py_truthy_str (v : option string) : bool :=
  match v with Some s => negb (String.eqb s "") | None => false end.

(** [TwitterSearchParams.validate_section]: raises on a value other than
    top / latest. *)
Definition validate_section (v : option string) : result (option string) :=
  match v with
  | Some s => if negb (String.eqb s "") && negb (str_in s ["top"; "latest"])
              then Raise ValidationError else Ok v
  | None => Ok v
  end.

(** [TwitterSearchParams.validate_language]. *)
Definition validate_language (v : option string) : result (option string) :=
  match v with
  | Some s => if negb (String.eqb s "") && negb (Nat.eqb (String.length s) 2)
              then Raise ValidationError else Ok v
  | None => Ok v
  end.

(** [Field(ge=lo, le=hi)] on an [Optional[int]]. *)
Definition bounded (lo : Z) (hi : option Z) (v : option Z) : result (option Z) :=
  match v with
  | None => Ok None
  | Some z =>
      if (lo <=? z)%Z && match hi with Some h => (z <=? h)%Z | None => true end
      then Ok v else Raise ValidationError
  end.

(** [TwitterSearchParams(...)] with every field given. *)
Definition mk_params (q : string) (sec : option string)
    (min_rt min_lk min_rp lim : option Z) (sd ed lang tok : option string) :
    result TwitterSearchParams :=
  let* sec' := validate_section sec in
  let* rt := bounded 0 None min_rt in
  let* lk := bounded 0 None min_lk in
  let* rp := bounded 0 None min_rp in
  let* l := bounded 1 (Some 20%Z) lim in
  let* lang' := validate_language lang in
  Ok (mk_TwitterSearchParams q sec' rt lk rp l sd ed lang' tok).

(** [datetime.strptime(s, "%Y-%m-%d")], following the regular expression
    [(\d\d\d\d)-(1[0-2]|0[1-9]|[1-9])-(3[01]|[12]\d|0[1-9]|[1-9]| [1-9])] of
    [_strptime], the "unconverted data remains" check and the range checks of
    [datetime.date]. *)
Definition digit (c : ascii) : option Z :=
  let n := nat_of_ascii c in
  if ((48 <=? n) && (n <=? 57))%nat then Some (Z.of_nat (n - 48)) else None.

Definition orelse {A} (a b : option A) : option A :=
  match a with Some _ => a | None => b end.

Definition parse_month (l : list ascii) : option (Z * list ascii) :=
  orelse
    match l with
    | a :: b :: c :: r =>
        match digit a, digit b with
        | Some x, Some y =>
            if Ascii.eqb c "-" && (((x =? 1) && (y <=? 2)) || ((x =? 0) && (1 <=? y)))%Z
            then Some (10 * x + y, r)%Z else None
        | _, _ => None
        end
    | _ => None
    end
    match l with
    | a :: c :: r =>
        match digit a with
        | Some x => if Ascii.eqb c "-" && (1 <=? x)%Z then Some (x, r) else None
        | None => None
        end
    | _ => None
    end.

Definition parse_day (l : list ascii) : option (Z * list ascii) :=
  let two (ok : Z -> Z -> bool) :=
    match l with
    | a :: b :: r =>
        match digit a, digit b with
        | Some x, Some y => if ok x y then Some (10 * x + y, r)%Z else None
        | _, _ => None
        end
    | _ => None
    end in
  orelse (two (fun x y => (x =? 3) && (y <=? 1))%Z)
  (orelse (two (fun x y => (x =? 1) || (x =? 2))%Z)
  (orelse (two (fun x y => (x =? 0) && (1 <=? y))%Z)
  (orelse
    match l with
    | a :: r => match digit a with
                | Some x => if (1 <=? x)%Z then Some (x, r) else None
                | None => None
                end
    | _ => None
    end
    match l with
    | c :: a :: r => match digit a with
                     | Some x => if Ascii.eqb c " " && (1 <=? x)%Z then Some (x, r) else None
                     | None => None
                     end
    | _ => None
    end))).

Definition is_leap (y : Z) : bool :=
  (Z.modulo y 4 =? 0)%Z && (negb (Z.modulo y 100 =? 0)%Z || (Z.modulo y 400 =? 0)%Z).

Definition days_in_month (y m : Z) : Z :=
  if (m =? 2)%Z then (if is_leap y then 29 else 28)%Z
  else if ((m =? 4) || (m =? 6) || (m =? 9) || (m =? 11))%Z then 30%Z else 31%Z.

Definition strptime_ymd (s : string) : option date :=
  match list_ascii_of_string s with
  | y1 :: y2 :: y3 :: y4 :: dash :: rest =>
      match digit y1, digit y2, digit y3, digit y4 with
      | Some a, Some b, Some c, Some d =>
          let y := (1000 * a + 100 * b + 10 * c + d)%Z in
          if Ascii.eqb dash "-" then
            match parse_month rest with
            | Some (m, r1) =>
                match parse_day r1 with
                | Some (dd, []) =>
                    if (1 <=? y)%Z && (dd <=? days_in_month y m)%Z
                    then Some (mk_date y m dd) else None
                | _ => None
                end
            | None => None
            end
          else None
      | _, _, _, _ => None
      end
  | _ => None
  end.

(** [TwitterSearchParams.validate_dates]. *)
Definition validate_dates (p : TwitterSearchParams) : result unit :=
  let check (v : option string) :=
    match v with
    | Some s => if py_truthy_str v then
                  match strptime_ymd s with Some _ => Ok tt | None => Raise ValueError end
                else Ok tt
    | None => Ok tt
    end in
  let* _ := check (start_date p) in
  let* _ := check (end_date p) in
  if py_truthy_str (start_date p) && py_truthy_str (end_date p) then
    match start_date p, end_date p with
    | Some s, Some e =>
        match strptime_ymd s, strptime_ymd e with
        | Some a, Some b => if date_gt a b then Raise ValueError else Ok tt
        | _, _ => Raise ValueError
        end
    | _, _ => Ok tt
    end
  else Ok tt.

(** [TwitterTool.search_tweets] up to the HTTP request: the parameters built
    (with [limit=5]) and validated before they are sent. *)
Definition search_tweets_params (q : string) (sec : option string)
    (min_rt min_lk min_rp : option Z) (sd ed lang tok : option string) :
    result TwitterSearchParams :=
  let* p := mk_params q sec min_rt min_lk min_rp (Some 5%Z) sd ed lang tok in
  let* _ := validate_dates p in
  Ok p.

End TwitterTool.

(** ** src/tools/twitter_tool.py: request parameters and response handling *)
Module TwitterResponse.
Import TwitterTool.

(** [TwitterSearchParams.to_dict]: [model_dump()] in field order, without
    the [None] values. *)
Definition to_dict (p : TwitterSearchParams) : list (string * pyval) :=
  let opt_s (k : string) (v : option string) :=
    match v with Some x => [(k, PStr x)] | None => [] end in
  let opt_z (k : string) (v : option Z) :=
    match v with Some x => [(k, PInt x)] | None => [] end in
  [("query", PStr (query p))]
  ++ opt_s "section" (section p)
  ++ opt_z "min_retweets" (min_retweets p)
  ++ opt_z "min_likes" (min_likes p)
  ++ opt_z "min_replies" (min_replies p)
  ++ opt_z "limit" (limit p)
  ++ opt_s "start_date" (start_date p)
  ++ opt_s "end_date" (end_date p)
  ++ opt_s "language" (language p)
  ++ opt_s "continuation_token" (continuation_token p).

(** The query string sent by [search_tweets] up to the HTTP request:
    [params=search_params.to_dict()]. *)
Definition search_tweets_request (q : string) (sec : option string)
    (min_rt min_lk min_rp : option Z) (sd ed lang tok : option string) :
    result (list (string * pyval)) :=
  let* p := search_tweets_params q sec min_rt min_lk min_rp sd ed lang tok in
  Ok (to_dict p).

(** The call [twitter_tool.search_tweets(query=q)] of main.py, with the
    keyword defaults of [search_tweets]. *)
Definition search_tweets_default_request (q : string) : result (list (string * pyval)) :=
  search_tweets_request q None (Some 1%Z) (Some 1%Z) (Some 0%Z) None None None None.

Record TwitterUser : Type := mk_TwitterUser {
  user_id : string;
  username : string;
  name : string;
  follower_count : Z;
  following_count : Z;
  description : option string;
  location : option string;
  profile_pic_url : option string;
  is_verified : bool;
  is_blue_verified : bool
}.

Record Tweet : Type := mk_Tweet {
  tweet_id : string;
  text : string;
  creation_date : string;
  user : TwitterUser;
  favorite_count : Z;
  retweet_count : Z;
  reply_count : Z;
  quote_count : Z;
  views : option Z;
  media_url : option (list string);
  video_url : option string;
  tweet_language : option string   (* Tweet.language *)
}.

Section Processing.

(** pydantic's lax conversion to [int] / [bool] of a JSON value that is not
    already an int / a bool ([None] when rejected). *)
Variable int_of_json : pyval -> option Z.
Variable bool_of_json : pyval -> option bool.

Definition int_field (v : pyval) : result Z :=
  match v with
  | PInt z => Ok z
  | PNone | PList _ | PDict _ => Raise ValidationError
  | _ => match int_of_json v with Some z => Ok z | None => Raise ValidationError end
  end.

Definition opt_int_field (v : pyval) : result (option Z) :=
  match v with
  | PNone => Ok None
  | _ => let* z := int_field v in Ok (Some z)
  end.

Definition bool_field (v : pyval) : result bool :=
  match v with
  | PBool b => Ok b
  | PNone | PList _ | PDict _ => Raise ValidationError
  | _ => match bool_of_json v with Some b => Ok b | None => Raise ValidationError end
  end.

Definition opt_str (v : pyval) : result (option string) :=
  match v with
  | PNone => Ok None
  | PStr s => Ok (Some s)
  | _ => Raise ValidationError
  end.

Definition opt_str_list (v : pyval) : result (option (list string)) :=
  match v with
  | PNone => Ok None
  | PList xs => let* ys := map_result as_str xs in Ok (Some ys)
  | _ => Raise ValidationError
  end.

(** [TwitterTool._process_tweet_data(tweet_data)]. *)
Definition process_tweet_data (tweet_data : pyval) : result Tweet :=
  let* user_data := Py.get tweet_data "user" (PDict []) in
  let* uid := Py.get user_data "user_id" (PStr "") in
  let* uname := Py.get user_data "username" (PStr "") in
  let* nm := Py.get user_data "name" (PStr "") in
  let* fc := Py.get user_data "follower_count" (PInt 0) in
  let* gc := Py.get user_data "following_count" (PInt 0) in
  let* ds := Py.get user_data "description" PNone in
  let* lo := Py.get user_data "location" PNone in
  let* pic := Py.get user_data "profile_pic_url" PNone in
  let* iv := Py.get user_data "is_verified" (PBool false) in
  let* ib := Py.get user_data "is_blue_verified" (PBool false) in
  let* uid' := as_str uid in
  let* uname' := as_str uname in
  let* nm' := as_str nm in
  let* fc' := int_field fc in
  let* gc' := int_field gc in
  let* ds' := opt_str ds in
  let* lo' := opt_str lo in
  let* pic' := opt_str pic in
  let* iv' := bool_field iv in
  let* ib' := bool_field ib in
  let u := mk_TwitterUser uid' uname' nm' fc' gc' ds' lo' pic' iv' ib' in
  let* tid := Py.get tweet_data "tweet_id" (PStr "") in
  let* tx := Py.get tweet_data "text" (PStr "") in
  let* cd := Py.get tweet_data "creation_date" (PStr "") in
  let* fav := Py.get tweet_data "favorite_count" (PInt 0) in
  let* rt := Py.get tweet_data "retweet_count" (PInt 0) in
  let* rp := Py.get tweet_data "reply_count" (PInt 0) in
  let* qt := Py.get tweet_data "quote_count" (PInt 0) in
  let* vw := Py.get tweet_data "views" PNone in
  let* mu := Py.get tweet_data "media_url" PNone in
  let* vu := Py.get tweet_data "video_url" PNone in
  let* lg := Py.get tweet_data "language" PNone in
  let* tid' := as_str tid in
  let* tx' := as_str tx in
  let* cd' := as_str cd in
  let* fav' := int_field fav in
  let* rt' := int_field rt in
  let* rp' := int_field rp in
  let* qt' := int_field qt in
  let* vw' := opt_int_field vw in
  let* mu' := opt_str_list mu in
  let* vu' := opt_str vu in
  let* lg' := opt_str lg in
  Ok (mk_Tweet tid' tx' cd' u fav' rt' rp' qt' vw' mu' vu' lg').

(** The loop of [search_tweets] over [data.get("results", [])]: a tweet
    whose processing raises is reported and skipped ([continue]). *)
Fixpoint collect_tweets (items : list pyval) : list Tweet :=
  match items with
  | [] => []
  | x :: xs =>
      match process_tweet_data x with
      | Ok t => t :: collect_tweets xs
      | Raise _ => collect_tweets xs
      end
  end.

(** [search_tweets] after the request: [data = response.json()] and the
    results loop. *)
Definition process_search_data (data : pyval) : result (list Tweet) :=
  let* rs := Py.get data "results" (PList []) in
  let* items := Py.iter rs in
  Ok (collect_tweets items).

(** [TwitterTool.search_tweets(...)]; [http params] is the outcome of
    [requests.get(url, headers=..., params=params, timeout=30)],
    [response.raise_for_status()] and [response.json()]. *)
Definition search_tweets (http : list (string * pyval) -> result pyval)
    (q : string) (sec : option string) (min_rt min_lk min_rp : option Z)
    (sd ed lang tok : option string) : result (list Tweet) :=
  let* params := search_tweets_request q sec min_rt min_lk min_rp sd ed lang tok in
  let* data := http params in
  process_search_data data.

End Processing.

End TwitterResponse.

(** ** src/tools/youtube_tool.py *)
Module YouTubeTool.

Record YouTubeSearchResult : Type := mk_YouTubeSearchResult {
  video_id : string;
  title : string;
  description : string;
  channel_title : string;
  published_at : string
}.

(** [x[0]] on a JSON value (JSON object keys are strings, so [0] is never a
    key of a dict). *)
Definition first (v : pyval) : result pyval :=
  match v with
  | PList (x :: _) => Ok x
  | PList [] => Raise KeyError          (* IndexError *)
  | PStr (String c _) => Ok (PStr (String c EmptyString))
  | PStr EmptyString => Raise KeyError  (* IndexError *)
  | PDict _ => Raise KeyError
  | _ => Raise TypeError
  end.

(** One item of the search response; [videos_list vid] is the response of
    [self.youtube.videos().list(part="snippet", id=vid).execute()]. *)
Definition search_item (videos_list : pyval -> result pyval) (item : pyval) :
    result YouTubeSearchResult :=
  let* idv := Py.getitem item "id" in
  let* vid := Py.getitem idv "videoId" in
  let* snippet := Py.getitem item "snippet" in
  let* video_response := videos_list vid in
  let* its := Py.getitem video_response "items" in
  let* it0 := first its in
  let* video_details := Py.getitem it0 "snippet" in
  let* tl := Py.getitem snippet "title" in
  let* dsc := Py.getitem video_details "description" in
  let* ch := Py.getitem snippet "channelTitle" in
  let* pub := Py.getitem snippet "publishedAt" in
  let* vid' := as_str vid in
  let* tl' := as_str tl in
  let* dsc' := as_str dsc in
  let* ch' := as_str ch in
  let* pub' := as_str pub in
  Ok (mk_YouTubeSearchResult vid' tl' dsc' ch' pub').

(** [YouTubeTool.search_videos(query)]; [search_response] is the outcome of
    the search request: any exception gives [[]]. *)
Definition search_videos (search_response : result pyval)
    (videos_list : pyval -> result pyval) : list YouTubeSearchResult :=
  match (let* resp := search_response in
         let* its := Py.get resp "items" (PList []) in
         let* items := Py.iter its in
         map_result (search_item videos_list) items) with
  | Ok rs => rs
  | Raise _ => []
  end.

(** One comment thread of [get_video_comments]: the dict appended. *)
Definition comment_item (item : pyval) : result (list (string * pyval)) :=
  let* sn := Py.getitem item "snippet" in
  let* top := Py.getitem sn "topLevelComment" in
  let* comment := Py.getitem top "snippet" in
  let* au := Py.getitem comment "authorDisplayName" in
  let* tx := Py.getitem comment "textDisplay" in
  let* pub := Py.getitem comment "publishedAt" in
  let* lk := Py.getitem comment "likeCount" in
  Ok [("author", au); ("text", tx); ("published_at", pub); ("like_count", lk)].

(** [YouTubeTool.get_video_comments(video_id, max_results)];
    [comments_response] is the outcome of the request. *)
Definition get_video_comments (comments_response : result pyval) :
    list (list (string * pyval)) :=
  match (let* resp := comments_response in
         let* its := Py.get resp "items" (PList []) in
         let* items := Py.iter its in
         map_result comment_item items) with
  | Ok cs => cs
  | Raise _ => []
  end.

End YouTubeTool.

(** ** src/main.py: pairing the search results with their analyses *)
Module MainApp.

(** [str(n)] of an [int]. *)
Fixpoint digits_rev (fuel : nat) (n : N) (acc : string) : string :=
  match fuel with
  | O => acc
  | S f =>
      let acc' := String (ascii_of_N (48 + N.modulo n 10)) acc in
      if N.ltb n 10 then acc' else digits_rev f (N.div n 10) acc'
  end.

Definition z_str (z : Z) : string :=
  match z with
  | Z0 => "0"
  | Zpos p => digits_rev (Pos.size_nat p) (Npos p) ""
  | Zneg p => String "-" (digits_rev (Pos.size_nat p) (Npos p) "")
  end.

(** Lines 115-125: the [search_results] entry of a tweet. *)
Definition twitter_search_result (t : TwitterResponse.Tweet) : text_item :=
  [("source", "Twitter");
   ("title", substring 0 100 (TwitterResponse.text t));   (* result.text[:100] *)
   ("author", TwitterResponse.username (TwitterResponse.user t));
   ("text", TwitterResponse.text t);
   ("date", TwitterResponse.creation_date t);
   ("engagement", z_str (TwitterResponse.favorite_count t) ++ " likes, "
                  ++ z_str (TwitterResponse.retweet_count t) ++ " retweets");
   ("tweet_id", TwitterResponse.tweet_id t)].

(** Lines 109-127: [for query in search_requests.twitter:
    results = twitter_tool.search_tweets(query=query.query)] with the keyword
    defaults; a query whose search raises is reported and skipped. *)
Definition search_phase (int_of_json : pyval -> option Z) (bool_of_json : pyval -> option bool)
    (http : list (string * pyval) -> result pyval) (qs : list TwitterSearchQuery) :
    list text_item :=
  flat_map (fun q =>
      match TwitterResponse.search_tweets int_of_json bool_of_json http (query q)
              None (Some 1%Z) (Some 1%Z) (Some 0%Z) None None None None with
      | Ok ts => map twitter_search_result ts
      | Raise _ => []
      end) qs.

(** One entry of [st.session_state.all_results]. *)
Record AnalysedResult : Type := mk_AnalysedResult {
  ar_source : string;
  ar_author : string;
  ar_text : string;
  ar_date : string;
  ar_engagement : string;
  ar_analysis : SlanderAnalysisResult
}.

Fixpoint item_get (k : string) (it : text_item) : option string :=
  match it with
  | [] => None
  | (k', v) :: it' => if String.eqb k k' then Some v else item_get k it'
  end.

Definition item_getitem (it : text_item) (k : string) : result string :=
  match item_get k it with Some v => Ok v | None => Raise KeyError end.

(** [for result, analysis in zip(search_results, analyses):
       all_results.append({...})]. *)
Definition all_results (search_results : list text_item)
    (analyses : list SlanderAnalysisResult) : result (list AnalysedResult) :=
  map_result (fun '(r, a) =>
      let* src := item_getitem r "source" in
      let* au := item_getitem r "author" in
      let* tx := item_getitem r "text" in
      let* dt := item_getitem r "date" in
      let eng := match item_get "engagement" r with Some e => e | None => "" end in
      Ok (mk_AnalysedResult src au tx dt eng a))
    (combine search_results analyses).

(** The colour band of a score: [risk_color] in main.py (lines 211-217 and
    252-258), [x > 0.7] and [x > 0.3] on floats. *)
Definition risk_color (x : float) : string :=
  if (0.7 <? x)%float then "red"
  else if (0.3 <? x)%float then "orange"
  else "green".

End MainApp.

(** ** The spec's formulas, stated separately to be compared with the code *)
Module SpecModel.
Open Scope Q_scope.

(** The real value of a finite float: [(-1)^s * m * 2^e] ([0] for the
    infinities and NaN, which have none). *)
Definition float_value (f : float) : Q :=
  match Prim2SF f with
  | S754_finite s m e =>
      let q := match e with
               | Zneg p => Zpos m # Pos.pow 2 p
               | _ => inject_Z (Zpos m * 2 ^ e)
               end in
      if s then - q else q
  | _ => 0
  end.

(** [Σ x_i]. *)
Definition spec_sum (xs : list Q) : Q := fold_right Qplus 0 xs.

(** combinedRiskScore = Σ(risk·confidence) / Σ(confidence), in exact
    arithmetic on the values of the scores; the unweighted arithmetic mean of
    the risk scores when Σ(confidence) = 0. *)
Definition spec_combined_risk (results : list SlanderAnalysisResult) : Q :=
  let risk r := float_value (risk_score r) in
  let conf r := float_value (confidence_score r) in
  let total := spec_sum (map conf results) in
  if Qeq_bool total 0
  then spec_sum (map risk results) / inject_Z (Z.of_nat (List.length results))
  else spec_sum (map (fun r => risk r * conf r) results) / total.

End SpecModel.

(** ** Concrete inputs used by the examples below *)
Module Inputs.

(** Library stand-ins for runs that never reach the library call. *)
Definition no_yaml (s : string) : result pyval := Raise YAMLError.
Definition no_float (s : string) : option float := None.
Definition no_datetime (v : pyval) : option date := None.

(** A model reply with an empty list of analyses. *)
Definition empty_analyses_doc : string := "content_analyses: []".

(** A loader agreeing with [yaml.safe_load] on [empty_analyses_doc]:
    [yaml.safe_load("content_analyses: []") == {"content_analyses": []}]. *)
Definition load_empty_analyses (s : string) : result pyval :=
  if String.eqb s empty_analyses_doc
  then Ok (PDict [(PStr "content_analyses", PList [])])
  else Raise YAMLError.

(** A model reply with one analysis scored outside [0, 1]. *)
Definition out_of_range_doc : string :=
  "content_analyses: [{risk_score: 5, context_analysis: x, confidence_score: 2}]".

(** A loader agreeing with [yaml.safe_load] on [out_of_range_doc]. *)
Definition load_out_of_range (s : string) : result pyval :=
  if String.eqb s out_of_range_doc
  then Ok (PDict [(PStr "content_analyses",
                   PList [PDict [(PStr "risk_score", PInt 5);
                                 (PStr "context_analysis", PStr "x");
                                 (PStr "confidence_score", PInt 2)]])])
  else Raise YAMLError.

(** Two content items. *)
Definition two_texts : list text_item :=
  [[("source", "Twitter"); ("text", "a")]; [("source", "Twitter"); ("text", "b")]].

(** One assessment. *)
Definition one_result : list SlanderAnalysisResult :=
  [mk_SlanderAnalysisResult 0.5 "x" 1].

(** Three assessments. *)
Definition three_results : list SlanderAnalysisResult :=
  [mk_SlanderAnalysisResult 0.9 "a" 0.8; mk_SlanderAnalysisResult 0.1 "b" 0.2;
   mk_SlanderAnalysisResult 0.5 "c" 0.5].

(** One assessment with risk 0.2 and confidence 0.1. *)
Definition tenths : list SlanderAnalysisResult :=
  [mk_SlanderAnalysisResult 0.2 "x" 0.1].

Definition may_1 : date := mk_date 2024 5 1.
Definition jan_1 : date := mk_date 2024 1 1.

End Inputs.

(** ** More concrete inputs *)
Module MoreInputs.

(** A search plan with one Twitter query and no YouTube query. *)
Definition plan_doc : string :=
  "{twitter: [{query: q, description: d}], youtube: []}".

(** A loader agreeing with [yaml.safe_load] on [plan_doc]. *)
Definition load_plan (s : string) : result pyval :=
  if String.eqb s plan_doc
  then Ok (PDict [(PStr "twitter",
                   PList [PDict [(PStr "query", PStr "q"); (PStr "description", PStr "d")]]);
                  (PStr "youtube", PList [])])
  else Raise YAMLError.

(** pydantic's parsing of a "YYYY-MM-DD" string for a [datetime] field
    (midnight of that day). *)
Definition parse_datetime (v : pyval) : option date :=
  match v with PStr s => TwitterTool.strptime_ymd s | _ => None end.

(** A model whose first invocation raises and whose later replies are [doc]. *)
Definition fails_once (doc : string) (i : nat) : llm_reply :=
  match i with O => InvokeRaises | S _ => Reply doc end.

(** Stand-ins for pydantic's lax conversions, for runs that never reach
    them. *)
Definition no_int (v : pyval) : option Z := None.
Definition no_bool (v : pyval) : option bool := None.

(** One item of a YouTube search response, and the response of the video
    details request. *)
Definition yt_item : pyval :=
  PDict [(PStr "id", PDict [(PStr "videoId", PStr "v1")]);
         (PStr "snippet", PDict [(PStr "title", PStr "t");
                                 (PStr "channelTitle", PStr "c");
                                 (PStr "publishedAt", PStr "2024-01-01T00:00:00Z")])].

Definition yt_videos (vid : pyval) : result pyval :=
  Ok (PDict [(PStr "items", PList [PDict [(PStr "snippet",
                                           PDict [(PStr "description", PStr "x")])]])]).

(** One comment thread of a comments response. *)
Definition yt_comment : pyval :=
  PDict [(PStr "snippet", PDict [(PStr "topLevelComment", PDict [(PStr "snippet",
    PDict [(PStr "authorDisplayName", PStr "a"); (PStr "textDisplay", PStr "t");
           (PStr "publishedAt", PStr "2024-01-01T00:00:00Z");
           (PStr "likeCount", PInt 3)])])])].

(** A model reply whose document has neither narrative key. *)
Definition other_doc : string := "{other: x}".

Definition load_other (s : string) : result pyval :=
  if String.eqb s other_doc then Ok (PDict [(PStr "other", PStr "x")]) else Raise YAMLError.

(** A well-formed analysis entry, and one that lacks two of the three
    fields. *)
Definition good_entry : pyval :=
  PDict [(PStr "content_index", PInt 1); (PStr "risk_score", PFloat 0.5);
         (PStr "context_analysis", PStr "x"); (PStr "confidence_score", PInt 1)].

Definition malformed_entry : pyval := PDict [(PStr "content_index", PInt 2);
                                             (PStr "risk_score", PInt 1)].

(** A model reply with a well-formed analysis followed by a malformed one. *)
Definition malformed_doc : string :=
  "content_analyses: [{content_index: 1, risk_score: 0.5, context_analysis: x, confidence_score: 1}, {content_index: 2, risk_score: 1}]".

Definition load_malformed (s : string) : result pyval :=
  if String.eqb s malformed_doc
  then Ok (PDict [(PStr "content_analyses", PList [good_entry; malformed_entry])])
  else Raise YAMLError.

(** A search endpoint answering every request with one empty tweet object. *)
Definition one_tweet_http (params : list (string * pyval)) : result pyval :=
  Ok (PDict [(PStr "results", PList [PDict []])]).

End MoreInputs.

(** * Proofs *)

(** ** The fence-cleaning step *)
Module CleanProofs.
Import PyStr.

Lemma starts_with_app_r (p t q : string) :
  starts_with p t = true -> starts_with p (t ++ q) = true.
Proof.
  revert t; induction p as [|c p IH]; intros [|d t] H; simpl in *; try easy.
  apply andb_true_iff in H as [H1 H2]. rewrite H1, (IH _ H2). reflexivity.
Qed.

Lemma starts_with_app_l (p q u : string) :
  starts_with (p ++ q) u = true -> starts_with p u = true.
Proof.
  revert u; induction p as [|c p IH]; intros [|d u] H; simpl in *; try easy.
  apply andb_true_iff in H as [H1 H2]. rewrite H1, (IH _ H2). reflexivity.
Qed.

Lemma contains_app_r (sub t q : string) :
  contains sub t = true -> contains sub (t ++ q) = true.
Proof.
  induction t as [|c t IH]; intro H; simpl in *.
  - destruct sub; [|discriminate H]. destruct q; reflexivity.
  - apply orb_true_iff in H as [H|H].
    + pose proof (starts_with_app_r _ (String c t) q H) as H'.
      simpl in H'. rewrite H'. reflexivity.
    + rewrite (IH H), orb_true_r. reflexivity.
Qed.

Lemma contains_app_l (sub p t : string) :
  contains sub t = true -> contains sub (p ++ t) = true.
Proof.
  induction p as [|c p IH]; intro H; simpl; [exact H|].
  rewrite (IH H), orb_true_r. reflexivity.
Qed.

Lemma contains_prefix_free (p q u : string) :
  contains (p ++ q) u = true -> contains p u = true.
Proof.
  induction u as [|c u IH]; intro H; simpl in *.
  - exact (starts_with_app_l p q _ H).
  - apply orb_true_iff in H as [H|H].
    + rewrite (starts_with_app_l p q _ H). reflexivity.
    + rewrite (IH H), orb_true_r. reflexivity.
Qed.

Lemma lstrip_suffix (s : string) : exists p, s = p ++ lstrip s.
Proof.
  induction s as [|c s [p Hp]]; simpl.
  - exists ""; reflexivity.
  - destruct (is_space c).
    + exists (String c p). simpl. rewrite <- Hp. reflexivity.
    + exists "". reflexivity.
Qed.

Lemma rstrip_prefix (s : string) : exists q, s = rstrip s ++ q.
Proof.
  induction s as [|c s [q Hq]]; simpl.
  - exists ""; reflexivity.
  - destruct (rstrip s) eqn:E.
    + destruct (is_space c).
      * exists (String c s). reflexivity.
      * exists q. simpl in *. f_equal. exact Hq.
    + exists q. simpl in *. f_equal. exact Hq.
Qed.

Lemma strip_not_contains (sub s : string) :
  contains sub s = false -> contains sub (strip s) = false.
Proof.
  intro H. unfold strip.
  destruct (lstrip_suffix s) as [p Hp].
  destruct (rstrip_prefix (lstrip s)) as [q Hq].
  destruct (contains sub (rstrip (lstrip s))) eqn:E; [|reflexivity].
  apply (contains_app_r _ _ q) in E. rewrite <- Hq in E.
  apply (contains_app_l _ p) in E. rewrite <- Hp in E. congruence.
Qed.

Lemma replace_scan_absent (old new s : string) :
  contains old s = false -> replace_scan old new 0 s = s.
Proof.
  induction s as [|c s IH]; intro H; simpl in *; [reflexivity|].
  apply orb_false_iff in H as [H1 H2]. rewrite H1, (IH H2). reflexivity.
Qed.

Lemma sw_cons (c d : ascii) (p s : string) :
  starts_with (String c p) (String d s) = Ascii.eqb c d && starts_with p s.
Proof. reflexivity. Qed.

Lemma scan_fence_no_tick (s : string) :
  starts_with "`" s = false ->
  starts_with "`" (replace_scan fence "" 0 s) = false.
Proof.
  destruct s as [|c s]; intro H; [reflexivity|].
  cbn [starts_with] in H. rewrite andb_true_r in H.
  cbn [replace_scan]. unfold fence. cbn [starts_with]. rewrite H.
  cbn [andb starts_with]. rewrite H. reflexivity.
Qed.

Lemma scan_fence_no_ticks (s : string) :
  starts_with "``" s = false ->
  starts_with "``" (replace_scan fence "" 0 s) = false.
Proof.
  destruct s as [|c s]; intro H; [reflexivity|].
  cbn [replace_scan]. unfold fence. cbn [starts_with] in H |- *.
  destruct (Ascii.eqb "`" c) eqn:Ec.
  - cbn [andb] in H |- *.
    assert (Hs : starts_with "`" s = false) by (destruct s; [reflexivity|exact H]).
    destruct s as [|d s]; [cbn [replace_scan]; apply andb_false_r|].
    cbn [starts_with] in Hs. rewrite andb_true_r in Hs. rewrite Hs. cbn [andb].
    rewrite Ec. cbn [andb].
    change (starts_with "`" (replace_scan "```" "" 0 (String d s)) = false).
    apply scan_fence_no_tick. cbn [starts_with]. rewrite Hs. reflexivity.
  - cbn [andb starts_with]. rewrite Ec. reflexivity.
Qed.

Lemma scan_fence_free (s : string) (k : nat) :
  contains fence (replace_scan fence "" k s) = false.
Proof.
  revert k; induction s as [|c s IH]; intros [|k]; try reflexivity.
  - cbn [replace_scan].
    destruct (starts_with fence (String c s)) eqn:Hs.
    + apply IH.
    + cbn [contains]. rewrite IH, orb_false_r.
      unfold fence in *. rewrite sw_cons in Hs |- *.
      destruct (Ascii.eqb "`" c) eqn:Ec; [|reflexivity]. cbn [andb] in Hs |- *.
      apply (scan_fence_no_ticks s). exact Hs.
  - apply IH.
Qed.

Lemma rstrip_cons (c : ascii) (s : string) :
  rstrip (String c s) =
  match rstrip s with
  | EmptyString => if is_space c then EmptyString else String c EmptyString
  | r => String c r
  end.
Proof. reflexivity. Qed.

Lemma rstrip_idem (s : string) : rstrip (rstrip s) = rstrip s.
Proof.
  induction s as [|c s IH]; [reflexivity|]. rewrite rstrip_cons.
  destruct (rstrip s) as [|d r] eqn:E.
  - destruct (is_space c) eqn:Ec; [reflexivity|].
    rewrite rstrip_cons. cbn [rstrip]. rewrite Ec. reflexivity.
  - rewrite rstrip_cons, IH. reflexivity.
Qed.

Lemma lstrip_head (s : string) :
  match lstrip s with EmptyString => True | String c _ => is_space c = false end.
Proof.
  induction s as [|c s IH]; cbn [lstrip]; [exact I|].
  destruct (is_space c) eqn:Ec; [exact IH|exact Ec].
Qed.

Lemma lstrip_rstrip_lstrip (s : string) :
  lstrip (rstrip (lstrip s)) = rstrip (lstrip s).
Proof.
  pose proof (lstrip_head s) as H.
  destruct (lstrip s) as [|c t]; [reflexivity|].
  rewrite rstrip_cons. destruct (rstrip t); [rewrite H|]; cbn [lstrip]; rewrite H; reflexivity.
Qed.

Lemma strip_idem (s : string) : strip (strip s) = strip s.
Proof. unfold strip. rewrite lstrip_rstrip_lstrip. apply rstrip_idem. Qed.

Lemma clean_fence_free (s : string) : contains fence (clean_yaml_response s) = false.
Proof.
  unfold clean_yaml_response. apply strip_not_contains.
  unfold replace, fence. apply scan_fence_free.
Qed.

End CleanProofs.

(** C10: the fence-cleaning step applied to every model response is
    idempotent, and its output never contains a "```" marker (markers are
    removed wherever they occur, not only at the ends). *)
Theorem clean_yaml_response_idempotent (s : string) :
  clean_yaml_response (clean_yaml_response s) = clean_yaml_response s
  /\ PyStr.contains fence (clean_yaml_response s) = false.
Proof.
  pose proof (CleanProofs.clean_fence_free s) as Hf. split; [|exact Hf].
  set (t := clean_yaml_response s) in *.
  assert (Hy : PyStr.contains fence_yaml t = false).
  { destruct (PyStr.contains fence_yaml t) eqn:E; [|reflexivity].
    apply (CleanProofs.contains_prefix_free fence "yaml") in E. congruence. }
  unfold clean_yaml_response at 1. unfold PyStr.replace, fence_yaml, fence in *.
  rewrite (CleanProofs.replace_scan_absent _ _ _ Hy).
  rewrite (CleanProofs.replace_scan_absent _ _ _ Hf).
  subst t. unfold clean_yaml_response. apply CleanProofs.strip_idem.
Qed.

(** ** The retry loop *)
Module RetryProofs.

Lemma retry3_all_fail {A} (body : nat -> result A) (fallback : A) :
  (forall i, i < 3 -> is_raise (body i) = true) ->
  retry body fallback 3 = (Some fallback, 3).
Proof.
  intro H. unfold retry. cbn [retry_from Nat.ltb Nat.leb Nat.sub].
  destruct (body 0) eqn:E0; [specialize (H 0); rewrite E0 in H; discriminate H; lia|].
  destruct (body 1) eqn:E1; [specialize (H 1); rewrite E1 in H; discriminate H; lia|].
  destruct (body 2) eqn:E2; [specialize (H 2); rewrite E2 in H; discriminate H; lia|].
  reflexivity.
Qed.

Lemma retry3_returns {A} (body : nat -> result A) (fallback : A) :
  exists a n, retry body fallback 3 = (Some a, n) /\ 1 <= n <= 3 /\
    (a = fallback \/ exists i, i < 3 /\ body i = Ok a).
Proof.
  unfold retry. cbn [retry_from Nat.ltb Nat.leb Nat.sub].
  destruct (body 0) as [a|] eqn:E0.
  { exists a, 1. split; [reflexivity|]. split; [lia|]. right. exists 0. split; [lia|exact E0]. }
  destruct (body 1) as [a|] eqn:E1.
  { exists a, 2. split; [reflexivity|]. split; [lia|]. right. exists 1. split; [lia|exact E1]. }
  destruct (body 2) as [a|] eqn:E2.
  { exists a, 3. split; [reflexivity|]. split; [lia|]. right. exists 2. split; [lia|exact E2]. }
  exists fallback, 3. split; [reflexivity|]. split; [lia|]. left. reflexivity.
Qed.

(** The two outcomes of three attempts: all fail, or a first one succeeds. *)
Lemma retry3_cases {A} (body : nat -> result A) (fallback : A) :
  ((forall i, i < 3 -> is_raise (body i) = true) /\ retry body fallback 3 = (Some fallback, 3))
  \/ exists i a, i < 3 /\ (forall j, j < i -> is_raise (body j) = true) /\ body i = Ok a
                 /\ retry body fallback 3 = (Some a, S i).
Proof.
  unfold retry. cbn [retry_from Nat.ltb Nat.leb Nat.sub].
  destruct (body 0) as [a|e0] eqn:E0.
  { right. exists 0, a. split; [lia|]. split; [intros; lia|]. split; [exact E0|reflexivity]. }
  destruct (body 1) as [a|e1] eqn:E1.
  { right. exists 1, a. split; [lia|].
    split; [intros j Hj; assert (j = 0) as -> by lia; rewrite E0; reflexivity|].
    split; [exact E1|reflexivity]. }
  destruct (body 2) as [a|e2] eqn:E2.
  { right. exists 2, a. split; [lia|].
    split; [intros j Hj; assert (j = 0 \/ j = 1) as [->| ->] by lia;
            [rewrite E0|rewrite E1]; reflexivity|].
    split; [exact E2|reflexivity]. }
  left. split; [|reflexivity].
  intros i Hi. assert (i = 0 \/ i = 1 \/ i = 2) as [->|[->| ->]] by lia;
    [rewrite E0|rewrite E1|rewrite E2]; reflexivity.
Qed.

End RetryProofs.

Lemma map_result_length {A B} (f : A -> result B) (xs : list A) (ys : list B) :
  map_result f xs = Ok ys -> List.length ys = List.length xs.
Proof.
  revert ys; induction xs as [|x xs IH]; intros ys H; cbn [map_result] in H.
  - injection H as <-. reflexivity.
  - destruct (f x) as [y|e]; cbn [bind] in H; [|discriminate H].
    destruct (map_result f xs) as [ys'|e]; cbn [bind] in H; [|discriminate H].
    injection H as <-. cbn [List.length]. f_equal. apply IH. reflexivity.
Qed.

Lemma map_result_forall2 {A B} (f : A -> result B) (xs : list A) (ys : list B) :
  map_result f xs = Ok ys -> Forall2 (fun x y => f x = Ok y) xs ys.
Proof.
  revert ys; induction xs as [|x xs IH]; intros ys H; cbn [map_result] in H.
  - injection H as <-. constructor.
  - destruct (f x) as [y|e] eqn:Ex; cbn [bind] in H; [|discriminate H].
    destruct (map_result f xs) as [ys'|e] eqn:Exs; cbn [bind] in H; [|discriminate H].
    injection H as <-. constructor; [exact Ex|]. apply IH. reflexivity.
Qed.

(** ** Binary64 facts *)
Module FloatProofs.

Lemma digits2_size (p : positive) : digits2_pos p = Pos.size p.
Proof. induction p; simpl; congruence. Qed.

Lemma size_bounds (p : positive) :
  (2 ^ (Zpos (Pos.size p) - 1) <= Zpos p < 2 ^ Zpos (Pos.size p))%Z.
Proof.
  pose proof (Pos.size_gt p) as H1. pose proof (Pos.size_le p) as H2.
  apply Pos2Z.pos_lt_pos in H1. apply Pos2Z.pos_le_pos in H2.
  rewrite (Pos2Z.inj_xO p) in H2. rewrite Pos2Z.inj_pow in H1, H2.
  split; [|exact H1].
  assert (E : (2 ^ Zpos (Pos.size p) = 2 * 2 ^ (Zpos (Pos.size p) - 1))%Z).
  { rewrite <- Z.pow_succ_r by lia. f_equal. lia. }
  lia.
Qed.

Lemma size_unique (p : positive) (k : Z) :
  (1 <= k)%Z -> (2 ^ (k - 1) <= Zpos p < 2 ^ k)%Z -> Zpos (Pos.size p) = k.
Proof.
  intros Hk [H1 H2]. pose proof (size_bounds p) as [H3 H4].
  destruct (Z.lt_trichotomy (Zpos (Pos.size p)) k) as [Hl|[He|Hg]]; [|exact He|].
  - exfalso. assert (2 ^ Zpos (Pos.size p) <= 2 ^ (k - 1))%Z
      by (apply Z.pow_le_mono_r; lia). lia.
  - exfalso. assert (2 ^ k <= 2 ^ (Zpos (Pos.size p) - 1))%Z
      by (apply Z.pow_le_mono_r; lia). lia.
Qed.

Lemma digits2_iter_xO (p k : positive) :
  digits2_pos (Pos.iter xO p k) = (digits2_pos p + k)%positive.
Proof.
  induction k as [|k IH] using Pos.peano_ind.
  - simpl. rewrite Pos.add_1_r. reflexivity.
  - rewrite Pos.iter_succ. cbn [digits2_pos]. rewrite IH. lia.
Qed.

Lemma shr_1_m (mrs : shr_record) :
  (0 <= shr_m mrs)%Z -> shr_m (shr_1 mrs) = Z.div2 (shr_m mrs).
Proof.
  destruct mrs as [m r s]. cbn [shr_m]. intro H.
  destruct m as [|[p|p|]|p]; try reflexivity. lia.
Qed.

Lemma iter_shr_1_m (n : positive) (mrs : shr_record) :
  (0 <= shr_m mrs)%Z -> shr_m (SpecFloat.iter_pos shr_1 n mrs) = Z.shiftr (shr_m mrs) (Zpos n).
Proof.
  revert mrs. induction n as [n IH|n IH|]; intros mrs H; cbn [SpecFloat.iter_pos].
  - assert (H1 : (0 <= shr_m (shr_1 mrs))%Z)
      by (rewrite shr_1_m by exact H; rewrite Z.div2_spec; apply Z.shiftr_nonneg; exact H).
    assert (H2 : (0 <= shr_m (SpecFloat.iter_pos shr_1 n (shr_1 mrs)))%Z)
      by (rewrite IH by exact H1; apply Z.shiftr_nonneg; exact H1).
    rewrite (IH _ H2), (IH _ H1), shr_1_m by exact H.
    rewrite Z.div2_spec, !Z.shiftr_shiftr by lia. f_equal. lia.
  - assert (H2 : (0 <= shr_m (SpecFloat.iter_pos shr_1 n mrs))%Z)
      by (rewrite IH by exact H; apply Z.shiftr_nonneg; exact H).
    rewrite (IH _ H2), (IH _ H).
    rewrite Z.shiftr_shiftr by lia. f_equal. lia.
  - rewrite shr_1_m by exact H. apply Z.div2_spec.
Qed.

Lemma round_ne_bounds (m : Z) (l : location) :
  (m <= round_nearest_even m l <= m + 1)%Z.
Proof.
  destruct l as [|[| |]]; cbn [round_nearest_even]; try lia.
  destruct (Z.even m); lia.
Qed.

(** A rounding with 53 digits and an exponent in the normal range changes
    nothing. *)
Lemma round_aux_exact (m : positive) (e : Z) :
  Zpos (digits2_pos m) = 53%Z -> (-1074 <= e)%Z ->
  binary_round_aux prec emax false (Zpos m) e loc_Exact
  = if (e <=? 971)%Z then S754_finite false m e else S754_infinity false.
Proof.
  intros Hd He. unfold binary_round_aux, shr_fexp. cbn [Zdigits2]. rewrite Hd.
  assert (Hc : (fexp prec emax (53 + e) - e = 0)%Z).
  { unfold fexp, emin, prec, emax. lia. }
  rewrite Hc. cbn [shr shr_record_of_loc shr_m loc_of_shr_record round_nearest_even Zdigits2].
  rewrite Hd, Hc. cbn [shr shr_record_of_loc shr_m]. reflexivity.
Qed.

Lemma normalize_pos (p : positive) :
  let y := binary_normalize prec emax (Zpos p) 0 false in
  valid_binary y = true
  /\ (y = S754_infinity false \/ exists m e, y = S754_finite false m e).
Proof.
  cbn zeta. unfold binary_normalize, binary_round.
  rewrite digits2_size. set (d := Pos.size p).
  pose proof (size_bounds p) as Hb. fold d in Hb.
  assert (Hf : fexp prec emax (Zpos d + 0) = (Zpos d - 53)%Z).
  { unfold fexp, emin, prec, emax. lia. }
  rewrite Hf. unfold shl_align.
  destruct (Z.le_gt_cases (Zpos d) 53) as [Hle|Hgt].
  - (* at most 53 digits: the value is exact *)
    assert (Hs : exists mz, (let '(mz, ez) := match (Zpos d - 53 - 0)%Z with
                              | Zneg k => (Pos.iter xO p k, (Zpos d - 53)%Z)
                              | _ => (p, 0%Z) end
                             in binary_round_aux prec emax false (Zpos mz) ez loc_Exact)
                            = binary_round_aux prec emax false (Zpos mz) (Zpos d - 53) loc_Exact
                    /\ Zpos (digits2_pos mz) = 53%Z).
    { destruct (Zpos d - 53 - 0)%Z as [|k|k] eqn:E.
      - exists p. split; [f_equal; lia|]. rewrite digits2_size. fold d. lia.
      - lia.
      - exists (Pos.iter xO p k). split; [reflexivity|].
        rewrite digits2_iter_xO, Pos2Z.inj_add, digits2_size. fold d. lia. }
    destruct Hs as [mz [-> Hd]].
    rewrite round_aux_exact by (exact Hd || lia).
    assert (Hl : (Zpos d - 53 <=? 971)%Z = true) by (apply Z.leb_le; lia).
    rewrite Hl. split; [|right; eexists _, _; reflexivity].
    cbn [valid_binary]. unfold bounded, canonical_mantissa. rewrite Hd.
    apply andb_true_iff. split; apply Z.eqb_eq || apply Z.leb_le;
      unfold fexp, emin, prec, emax; lia.
  - (* more than 53 digits: shift right by d - 53 and round *)
    set (c := (Zpos d - 53)%Z).
    assert (Hc : (c - 0)%Z = Zpos (Z.to_pos c)).
    { rewrite Z2Pos.id by lia. lia. }
    rewrite Hc. unfold binary_round_aux.
    assert (E1 : shr_fexp prec emax (Zpos p) 0 loc_Exact
                 = (SpecFloat.iter_pos shr_1 (Z.to_pos c) (Build_shr_record (Zpos p) false false), c)).
    { unfold shr_fexp. cbn [Zdigits2 shr_record_of_loc]. rewrite digits2_size. fold d.
      rewrite Hf. fold c. rewrite Hc. cbn [shr]. f_equal. rewrite Z2Pos.id by lia. lia. }
    rewrite E1.
    set (mrs := SpecFloat.iter_pos shr_1 (Z.to_pos c) (Build_shr_record (Zpos p) false false)).
    assert (Hm : (2 ^ 52 <= shr_m mrs < 2 ^ 53)%Z).
    { unfold mrs. rewrite iter_shr_1_m by (cbn; lia). cbn [shr_m].
      rewrite Z2Pos.id by lia. rewrite Z.shiftr_div_pow2 by lia.
      assert (P : (2 ^ Zpos d = 2 ^ 53 * 2 ^ c)%Z) by (rewrite <- Z.pow_add_r by lia; f_equal; lia).
      assert (P' : (2 ^ (Zpos d - 1) = 2 ^ 52 * 2 ^ c)%Z) by (rewrite <- Z.pow_add_r by lia; f_equal; lia).
      assert (Pc : (0 < 2 ^ c)%Z) by (apply Z.pow_pos_nonneg; lia).
      split.
      - apply Z.div_le_lower_bound; lia.
      - apply Z.div_lt_upper_bound; lia. }
    pose proof (round_ne_bounds (shr_m mrs) (loc_of_shr_record mrs)) as Hr.
    set (m1 := round_nearest_even (shr_m mrs) (loc_of_shr_record mrs)) in *.
    destruct m1 as [|p1|p1] eqn:Em1; [lia| |lia].
    unfold shr_fexp. cbn [Zdigits2 shr_record_of_loc]. rewrite digits2_size.
    destruct (Z.eq_dec (Zpos p1) (2 ^ 53)) as [Htop|Hlow].
    + (* rounding carried into a 54th digit *)
      assert (Hp1 : p1 = 9007199254740992%positive) by (apply Pos2Z.inj; rewrite Htop; reflexivity).
      subst p1.
      assert (Hcnt : (fexp prec emax (Zpos (Pos.size 9007199254740992) + c) - c)%Z = 1%Z).
      { cbn [Pos.size]. unfold fexp, emin, prec, emax. lia. }
      rewrite Hcnt. cbn [shr SpecFloat.iter_pos shr_1 shr_m].
      destruct (c + 1 <=? emax - prec)%Z eqn:Eb.
      * split; [|right; eexists _, _; reflexivity].
        cbn [valid_binary]. unfold bounded, canonical_mantissa.
        apply andb_true_iff. split; [apply Z.eqb_eq|exact Eb].
        cbn [digits2_pos]. unfold fexp, emin, prec, emax. lia.
      * split; [reflexivity|left; reflexivity].
    + assert (Hs : Zpos (Pos.size p1) = 53%Z) by (apply size_unique; lia).
      assert (Hcnt : (fexp prec emax (Zpos (Pos.size p1) + c) - c)%Z = 0%Z).
      { rewrite Hs. unfold fexp, emin, prec, emax. lia. }
      rewrite Hcnt. cbn [shr shr_m].
      destruct (c <=? emax - prec)%Z eqn:Eb.
      * split; [|right; eexists _, _; reflexivity].
        cbn [valid_binary]. unfold bounded, canonical_mantissa.
        apply andb_true_iff. split; [apply Z.eqb_eq|exact Eb].
        rewrite digits2_size, Hs. unfold fexp, emin, prec, emax. lia.
      * split; [reflexivity|left; reflexivity].
Qed.

Lemma float_of_len_succ (n : nat) :
  Prim2SF (Py.float_of_len (S n)) = S754_infinity false
  \/ exists m e, Prim2SF (Py.float_of_len (S n)) = S754_finite false m e.
Proof.
  unfold Py.float_of_len. cbn [Z.of_nat].
  destruct (normalize_pos (Pos.of_succ_nat n)) as [Hv Hy].
  rewrite Prim2SF_SF2Prim by exact Hv. exact Hy.
Qed.

Lemma float_of_len_nonzero (n : nat) : (Py.float_of_len (S n) =? 0)%float = false.
Proof.
  rewrite FloatAxioms.eqb_spec. change (Prim2SF 0%float) with (S754_zero false).
  destruct (float_of_len_succ n) as [->|[m [e ->]]]; reflexivity.
Qed.

Lemma zero_div_len (n : nat) : (0 / Py.float_of_len (S n))%float = 0%float.
Proof.
  rewrite <- (SF2Prim_Prim2SF (0 / Py.float_of_len (S n))%float), div_spec.
  change (Prim2SF 0%float) with (S754_zero false).
  destruct (float_of_len_succ n) as [->|[m [e ->]]]; reflexivity.
Qed.

Lemma sum_fold_zeros (k : nat) : Py.sum_fold (repeat 0%float k) = 0%float.
Proof.
  unfold Py.sum_fold. induction k as [|k IH]; [reflexivity|].
  cbn [repeat fold_left]. exact IH.
Qed.

Lemma neumaier_loop_zeros (k : nat) : Py.neumaier_loop 0 0 (repeat 0%float k) = 0%float.
Proof. induction k as [|k IH]; [reflexivity|]. exact IH. Qed.

Lemma sum_neumaier_zeros (k : nat) : Py.sum_neumaier (repeat 0%float k) = 0%float.
Proof. destruct k as [|k]; [reflexivity|]. exact (neumaier_loop_zeros k). Qed.

End FloatProofs.

(** ** calculate_overall_analysis *)
Module OverallProofs.

(** On a non-empty list the weighted mean never raises: the divisor is
    either a non-zero total or a length, which is never 0.0. *)
Lemma combined_risk_value (sum_floats : list float -> float)
    (results : list SlanderAnalysisResult) :
  results <> [] ->
  combined_risk sum_floats results
  = Ok (let total := sum_floats (map confidence_score results) in
        if (total =? 0)%float
        then (sum_floats (map risk_score results) / Py.float_of_len (List.length results))%float
        else (sum_floats (map (fun r => risk_score r * confidence_score r)%float results)
              / total)%float).
Proof.
  intro Hne. destruct results as [|r rs]; [congruence|].
  unfold combined_risk, Py.div. cbv zeta.
  destruct (sum_floats (map confidence_score (r :: rs)) =? 0)%float eqn:E.
  - cbn [List.length]. rewrite FloatProofs.float_of_len_nonzero. reflexivity.
  - reflexivity.
Qed.

Lemma combined_risk_ok (sum_floats : list float -> float)
    (results : list SlanderAnalysisResult) :
  results <> [] -> exists w, combined_risk sum_floats results = Ok w.
Proof. intro Hne. eexists. exact (combined_risk_value sum_floats results Hne). Qed.

Lemma narrative_attempt_score (safe_load : string -> result pyval) (c : float)
    (reply : llm_reply) (oa : OverallAnalysis) :
  narrative_attempt safe_load c reply = Ok oa -> combined_risk_score oa = c.
Proof.
  unfold narrative_attempt. intro En.
  destruct (response_content reply); cbn [bind] in En; [|discriminate En].
  destruct (String.eqb _ _); [discriminate En|].
  destruct (safe_load _); cbn [bind] in En; [|discriminate En].
  destruct (negb _); [discriminate En|].
  destruct (Py.get a0 "pattern_analysis" _); cbn [bind] in En; [|discriminate En].
  destruct (Py.get a0 "cross_references" _); cbn [bind] in En; [|discriminate En].
  destruct (as_str a1); cbn [bind] in En; [|discriminate En].
  destruct (as_str a2); cbn [bind] in En; [|discriminate En].
  injection En as <-. reflexivity.
Qed.

(** Whatever the narrative step gives, the call returns after one
    invocation an analysis carrying the combined score. *)
Lemma calculate_overall_analysis_score (safe_load : string -> result pyval)
    (sum_floats : list float -> float) (results : list SlanderAnalysisResult)
    (reply : llm_reply) (w : float) :
  results <> [] -> combined_risk sum_floats results = Ok w ->
  exists oa, calculate_overall_analysis safe_load sum_floats results reply = (Ok oa, 1%nat)
             /\ combined_risk_score oa = w.
Proof.
  intros Hne Hw. unfold calculate_overall_analysis.
  destruct results as [|r rs]; [congruence|]. rewrite Hw.
  destruct (narrative_attempt safe_load w reply) as [oa|e] eqn:En.
  - exists oa. split; [reflexivity|]. exact (narrative_attempt_score _ _ _ _ En).
  - eexists. split; reflexivity.
Qed.

End OverallProofs.

Section OverallTheorems.
Context (safe_load : string -> result pyval) (sum_floats : list float -> float).

(** C9: with no assessments, [calculate_overall_analysis] returns score 0.0
    and the "No content analyzed." placeholders, and invokes the model zero
    times, whatever the model would reply. *)
Theorem calculate_overall_analysis_empty (reply : llm_reply) :
  calculate_overall_analysis safe_load sum_floats [] reply =
  (Ok (mk_OverallAnalysis 0%float "No content analyzed." "No content analyzed."), 0%nat).
Proof. reflexivity. Qed.

(** C3 (as amended): for a non-empty list of assessments, whatever the model
    replies to the narrative call, [calculate_overall_analysis] returns after
    one invocation an analysis whose combined score is the binary64 value of
    lines 38-44: [sum(risk*confidence) / sum(confidence)], or
    [sum(risk) / len(results)] when [sum(confidence) == 0], each sum ([sum_floats],
    Python's [sum]), product and quotient rounded to the nearest float. *)
Theorem calculate_overall_analysis_weighted_score
    (results : list SlanderAnalysisResult) (reply : llm_reply) :
  results <> [] ->
  exists oa, calculate_overall_analysis safe_load sum_floats results reply = (Ok oa, 1%nat)
  /\ combined_risk_score oa =
     (let total := sum_floats (map confidence_score results) in
      if (total =? 0)%float
      then (sum_floats (map risk_score results) / Py.float_of_len (List.length results))%float
      else (sum_floats (map (fun r => risk_score r * confidence_score r)%float results)
            / total)%float).
Proof.
  intro Hne.
  exact (OverallProofs.calculate_overall_analysis_score safe_load sum_floats results reply _ Hne
           (OverallProofs.combined_risk_value sum_floats results Hne)).
Qed.

(** C4: for a non-empty list of assessments and any reply of the model,
    [calculate_overall_analysis] returns (does not raise) an OverallAnalysis
    after one invocation whose score is the score computed before the call;
    when the narrative step fails (in particular when invoke raises, returns
    nothing or an empty text, or the text does not parse), both narrative
    fields are the fixed error placeholders. *)
Theorem calculate_overall_analysis_isolates_narrative
    (results : list SlanderAnalysisResult) (reply : llm_reply) :
  results <> [] ->
  exists w oa,
    combined_risk sum_floats results = Ok w
    /\ calculate_overall_analysis safe_load sum_floats results reply = (Ok oa, 1%nat)
    /\ combined_risk_score oa = w
    /\ ((reply = InvokeRaises \/ reply = NoResponse \/ reply = Reply ""
         \/ exists c e, reply = Reply c /\ safe_load (clean_yaml_response c) = Raise e)
        -> is_raise (narrative_attempt safe_load w reply) = true)
    /\ (is_raise (narrative_attempt safe_load w reply) = true ->
        pattern_analysis oa = "Error generating pattern analysis."
        /\ cross_references oa = "Error generating cross-reference analysis.").
Proof.
  intro Hne. destruct (OverallProofs.combined_risk_ok sum_floats results Hne) as [w Hw].
  unfold calculate_overall_analysis.
  destruct results as [|r rs]; [congruence|]. rewrite Hw.
  assert (Hfail : (reply = InvokeRaises \/ reply = NoResponse \/ reply = Reply ""
         \/ exists c e, reply = Reply c /\ safe_load (clean_yaml_response c) = Raise e)
        -> is_raise (narrative_attempt safe_load w reply) = true).
  { intros [->|[->|[->|[c [e [-> He]]]]]]; try reflexivity.
    unfold narrative_attempt, response_content.
    destruct (String.eqb c ""); [reflexivity|]. cbn [bind].
    destruct (String.eqb (clean_yaml_response c) ""); [reflexivity|].
    rewrite He. reflexivity. }
  destruct (narrative_attempt safe_load w reply) as [oa|e] eqn:En.
  - exists w, oa. rewrite En. split; [reflexivity|]. split; [reflexivity|].
    split; [|split; [exact Hfail|discriminate]].
    exact (OverallProofs.narrative_attempt_score _ _ _ _ En).
  - eexists w, _. rewrite En. split; [reflexivity|]. split; [reflexivity|].
    split; [reflexivity|]. split; [exact Hfail|]. intros _. split; reflexivity.
Qed.

End OverallTheorems.

(** C3 witness: three assessments, the summation of CPython 3.12, a model
    that raises. *)
Lemma calculate_overall_analysis_weighted_score_witness :
  Inputs.three_results <> []
  /\ exists oa,
    calculate_overall_analysis Inputs.no_yaml Py.sum_neumaier Inputs.three_results InvokeRaises
    = (Ok oa, 1%nat)
    /\ combined_risk_score oa =
       (let total := Py.sum_neumaier (map confidence_score Inputs.three_results) in
        if (total =? 0)%float
        then (Py.sum_neumaier (map risk_score Inputs.three_results)
              / Py.float_of_len (List.length Inputs.three_results))%float
        else (Py.sum_neumaier (map (fun r => risk_score r * confidence_score r)%float
                                Inputs.three_results) / total)%float).
Proof.
  split; [discriminate|].
  apply calculate_overall_analysis_weighted_score. discriminate.
Defined.

(** C3 counterexample: one assessment with risk 0.2 and confidence 0.1.  In
    exact arithmetic the weighted mean (0.2*0.1)/0.1 is the value of the
    float 0.2; the code computes 0.2*0.1 = 0.020000000000000004 and then
    0.020000000000000004/0.1 = 0.20000000000000004, with either summation. *)
Lemma calculate_overall_analysis_rounded_score :
  calculate_overall_analysis Inputs.no_yaml Py.sum_fold Inputs.tenths InvokeRaises
  = (Ok (mk_OverallAnalysis 0.20000000000000004 "Error generating pattern analysis."
           "Error generating cross-reference analysis."), 1%nat)
  /\ calculate_overall_analysis Inputs.no_yaml Py.sum_neumaier Inputs.tenths InvokeRaises
     = (Ok (mk_OverallAnalysis 0.20000000000000004 "Error generating pattern analysis."
              "Error generating cross-reference analysis."), 1%nat)
  /\ (SpecModel.spec_combined_risk Inputs.tenths == SpecModel.float_value 0.2)%Q
  /\ ~ (SpecModel.float_value 0.20000000000000004
        == SpecModel.spec_combined_risk Inputs.tenths)%Q.
Proof.
  split; [vm_compute; reflexivity|].
  split; [vm_compute; reflexivity|].
  split; [vm_compute; reflexivity|].
  intro H. vm_compute in H. discriminate H.
Qed.

(** C4 witness: one assessment, a model that raises. *)
Lemma calculate_overall_analysis_isolates_narrative_witness :
  Inputs.one_result <> []
  /\ exists w oa,
    combined_risk Py.sum_fold Inputs.one_result = Ok w
    /\ calculate_overall_analysis Inputs.no_yaml Py.sum_fold Inputs.one_result InvokeRaises
       = (Ok oa, 1%nat)
    /\ combined_risk_score oa = w
    /\ ((InvokeRaises = InvokeRaises \/ InvokeRaises = NoResponse \/ InvokeRaises = Reply ""
         \/ exists c e, InvokeRaises = Reply c
                        /\ Inputs.no_yaml (clean_yaml_response c) = Raise e)
        -> is_raise (narrative_attempt Inputs.no_yaml w InvokeRaises) = true)
    /\ (is_raise (narrative_attempt Inputs.no_yaml w InvokeRaises) = true ->
        pattern_analysis oa = "Error generating pattern analysis."
        /\ cross_references oa = "Error generating cross-reference analysis.").
Proof.
  split; [discriminate|].
  apply calculate_overall_analysis_isolates_narrative. discriminate.
Defined.

(** ** analyze_multiple_texts *)
Section AnalyzeTheorems.
Context (safe_load : string -> result pyval) (float_of_str : string -> option float).

(** C2: if all 3 attempts fail, [analyze_multiple_texts] returns (does not
    raise), after 3 invocations, one degraded assessment per input item, each
    with risk 0.0, confidence 0.0 and the placeholder explanation. *)
Theorem analyze_multiple_texts_exhausted
    (llm : nat -> llm_reply) (texts : list text_item) (target_person : option string) :
  (forall i, i < 3 -> is_raise (analyze_attempt safe_load float_of_str (llm i)) = true) ->
  exists rs,
    analyze_multiple_texts safe_load float_of_str llm texts target_person = (Some rs, 3)
    /\ List.length rs = List.length texts
    /\ Forall (fun r => risk_score r = 0%float /\ confidence_score r = 0%float
                        /\ context_analysis r =
                           "Analysis failed after multiple attempts. Please try again.") rs.
Proof.
  intro H. exists (map (fun _ => degraded_result) texts).
  split; [unfold analyze_multiple_texts; apply RetryProofs.retry3_all_fail; exact H|].
  split; [apply length_map|].
  apply Forall_forall. intros r Hr. apply in_map_iff in Hr as [t [<- _]].
  repeat split.
Qed.

(** C1, the code's behaviour: [analyze_multiple_texts] always returns a
    list.  Either all 3 attempts fail, and it returns one degraded assessment
    per input item after 3 invocations; or, for the first attempt i that
    succeeds (all earlier ones failing), it returns after i+1 invocations the
    assessments decoded one by one, in the model's order, from the
    [content_analyses] entries of reply i, with no reordering by
    [content_index] and no check against [len(texts)]. *)
Theorem analyze_multiple_texts_result_shape
    (llm : nat -> llm_reply) (texts : list text_item) (target_person : option string) :
  ((forall i, i < 3 -> is_raise (analyze_attempt safe_load float_of_str (llm i)) = true)
   /\ analyze_multiple_texts safe_load float_of_str llm texts target_person
      = (Some (map (fun _ => degraded_result) texts), 3))
  \/ exists i items rs,
       i < 3
       /\ (forall j, j < i -> is_raise (analyze_attempt safe_load float_of_str (llm j)) = true)
       /\ content_analyses_of safe_load (llm i) = Ok items
       /\ Forall2 (fun x r => mk_slander_result float_of_str x = Ok r) items rs
       /\ analyze_multiple_texts safe_load float_of_str llm texts target_person
          = (Some rs, S i).
Proof.
  unfold analyze_multiple_texts.
  destruct (RetryProofs.retry3_cases
              (fun attempt => analyze_attempt safe_load float_of_str (llm attempt))
              (map (fun _ => degraded_result) texts)) as [[Hall Hr]|[i [rs [Hi [Hj [Ha Hr]]]]]].
  - left. split; [exact Hall|exact Hr].
  - right. unfold analyze_attempt in Ha.
    destruct (content_analyses_of safe_load (llm i)) as [items|e] eqn:Ec;
      cbn [bind] in Ha; [|discriminate Ha].
    exists i, items, rs. split; [exact Hi|]. split; [exact Hj|]. split; [exact Ec|].
    split; [exact (map_result_forall2 _ _ _ Ha)|exact Hr].
Qed.

End AnalyzeTheorems.

(** C2 witness: a model whose every invocation raises. *)
Lemma analyze_multiple_texts_exhausted_witness :
  (forall i, i < 3 ->
     is_raise (analyze_attempt Inputs.no_yaml Inputs.no_float ((fun _ => InvokeRaises) i)) = true)
  /\ exists rs,
    analyze_multiple_texts Inputs.no_yaml Inputs.no_float (fun _ => InvokeRaises)
      Inputs.two_texts None = (Some rs, 3)
    /\ List.length rs = List.length Inputs.two_texts
    /\ Forall (fun r => risk_score r = 0%float /\ confidence_score r = 0%float
                        /\ context_analysis r =
                           "Analysis failed after multiple attempts. Please try again.") rs.
Proof.
  split; [intros; reflexivity|].
  apply analyze_multiple_texts_exhausted. intros; reflexivity.
Defined.

(** C1 counterexample: two content items and a well-formed reply with an
    empty [content_analyses] list: the call returns an empty list after one
    invocation, not two assessments. *)
Lemma analyze_multiple_texts_length_mismatch :
  analyze_multiple_texts Inputs.load_empty_analyses Inputs.no_float
    (fun _ => Reply Inputs.empty_analyses_doc) Inputs.two_texts None = (Some [], 1)
  /\ List.length Inputs.two_texts = 2.
Proof. split; vm_compute; reflexivity. Qed.

(** C6 counterexample: a reply scoring an item with risk 5 and confidence 2
    is decoded as such: the assessment has risk 5.0 and confidence 2.0, both
    above 1. *)
Lemma analyze_multiple_texts_out_of_range_scores :
  analyze_multiple_texts Inputs.load_out_of_range Inputs.no_float
    (fun _ => Reply Inputs.out_of_range_doc) [[("text", "a")]] None
  = (Some [mk_SlanderAnalysisResult 5 "x" 2], 1)
  /\ (1 <? 5)%float = true /\ (1 <? 2)%float = true.
Proof. split; [vm_compute; reflexivity|]. split; reflexivity. Qed.

(** C6, the code's behaviour: [SlanderAnalysisResult] does not check the
    range of its scores: any float is accepted as risk_score and
    confidence_score (so values decoded from the model carry whatever it
    returned); only the degraded fallback assessment (0.0, 0.0) lies in
    [0, 1] by construction. *)
Theorem slander_result_scores_unchecked
    (float_of_str : string -> option float) (q f : float) (c : string) :
  mk_slander_result float_of_str
    (PDict [(PStr "risk_score", PFloat q); (PStr "context_analysis", PStr c);
            (PStr "confidence_score", PFloat f)])
  = Ok (mk_SlanderAnalysisResult q c f)
  /\ (0 <=? risk_score degraded_result)%float && (risk_score degraded_result <=? 1)%float = true
  /\ (0 <=? confidence_score degraded_result)%float
     && (confidence_score degraded_result <=? 1)%float = true.
Proof. split; [reflexivity|]. split; reflexivity. Qed.

(** ** generate_queries *)

(** C5: if every attempt fails (the model raises, replies with nothing, or
    with text that does not parse or lacks a required key),
    [generate_queries] invokes the model exactly 3 times and returns (does not
    raise) the empty plan. *)
Theorem generate_queries_exhausted
    (safe_load : string -> result pyval) (datetime_of : pyval -> option date)
    (llm : nat -> llm_reply) (natural_language_input : string)
    (default_dates : string * string) :
  (forall i, i < 3 ->
     is_raise (generate_attempt safe_load datetime_of default_dates (llm i)) = true) ->
  generate_queries safe_load datetime_of llm natural_language_input default_dates
  = (Some (mk_SearchQueries [] []), 3).
Proof. intro H. apply RetryProofs.retry3_all_fail. exact H. Qed.

(** C5 witness: a model whose every invocation raises. *)
Lemma generate_queries_exhausted_witness :
  (forall i, i < 3 ->
     is_raise (generate_attempt Inputs.no_yaml Inputs.no_datetime
                 ("2024-04-01", "2024-05-01") ((fun _ => InvokeRaises) i)) = true)
  /\ generate_queries Inputs.no_yaml Inputs.no_datetime (fun _ => InvokeRaises)
       "topic" ("2024-04-01", "2024-05-01")
     = (Some (mk_SearchQueries [] []), 3).
Proof.
  split; [intros; reflexivity|].
  apply generate_queries_exhausted. intros; reflexivity.
Defined.

(** ** Search query sections *)




(** ** Date ranges *)

(** C8 counterexample: a planner query from 2024-05-01 to 2024-01-01 is
    accepted, and so is the construction of the search tool's parameters with
    those dates. *)
Lemma twitter_query_accepts_reversed_dates :
  mk_twitter_query Inputs.no_datetime
    (PDict [(PStr "query", PStr "q"); (PStr "description", PStr "d");
            (PStr "start_date", PDateTime Inputs.may_1);
            (PStr "end_date", PDateTime Inputs.jan_1)])
  = Ok (mk_TwitterSearchQuery "q" "d" None (Some Inputs.may_1) (Some Inputs.jan_1) None)
  /\ date_gt Inputs.may_1 Inputs.jan_1 = true
  /\ TwitterTool.mk_params "q" None (Some 1%Z) (Some 1%Z) (Some 0%Z) (Some 5%Z)
       (Some "2024-05-01") (Some "2024-01-01") None None
     = Ok (TwitterTool.mk_TwitterSearchParams "q" None (Some 1%Z) (Some 1%Z) (Some 0%Z)
             (Some 5%Z) (Some "2024-05-01") (Some "2024-01-01") None None).
Proof. split; [|split]; reflexivity. Qed.

Module DateProofs.
Import TwitterTool.

Lemma strptime_nonempty (s : string) (a : date) :
  strptime_ymd s = Some a -> py_truthy_str (Some s) = true.
Proof. destruct s; [discriminate|reflexivity]. Qed.

End DateProofs.

(** C8 (as amended): neither the planner query nor the constructor of the
    search tool's parameters checks the order of the dates (any two dates are
    accepted); [TwitterSearchParams.validate_dates], which [search_tweets]
    runs before sending the request, raises ValueError when both dates parse
    as YYYY-MM-DD and the start is after the end, so [search_tweets] rejects
    the request. *)
Theorem validate_dates_rejects_reversed
    (datetime_of : pyval -> option date) (q d : string) (d1 d2 : date)
    (p : TwitterTool.TwitterSearchParams) (s e : string) (a b : date) :
  TwitterTool.start_date p = Some s -> TwitterTool.end_date p = Some e ->
  TwitterTool.strptime_ymd s = Some a -> TwitterTool.strptime_ymd e = Some b ->
  date_gt a b = true ->
  mk_twitter_query datetime_of
    (PDict [(PStr "query", PStr q); (PStr "description", PStr d);
            (PStr "start_date", PDateTime d1); (PStr "end_date", PDateTime d2)])
  = Ok (mk_TwitterSearchQuery q d None (Some d1) (Some d2) None)
  /\ TwitterTool.validate_dates p = Raise ValueError
  /\ (forall sec min_rt min_lk min_rp lang tok,
        is_raise (TwitterTool.search_tweets_params (TwitterTool.query p) sec
                    min_rt min_lk min_rp (Some s) (Some e) lang tok) = true).
Proof.
  intros Hsd Hed Ha Hb Hgt.
  assert (Hv : forall p', TwitterTool.start_date p' = Some s ->
                          TwitterTool.end_date p' = Some e ->
                          TwitterTool.validate_dates p' = Raise ValueError).
  { intros p' H1 H2. unfold TwitterTool.validate_dates. rewrite H1, H2.
    rewrite (DateProofs.strptime_nonempty s a Ha), (DateProofs.strptime_nonempty e b Hb).
    rewrite Ha, Hb. cbn [bind andb]. rewrite Hgt. reflexivity. }
  split; [reflexivity|]. split; [exact (Hv p Hsd Hed)|].
  intros. unfold TwitterTool.search_tweets_params.
  destruct (TwitterTool.mk_params _ _ _ _ _ _ _ _ _ _) as [p'|err] eqn:Hp; [|reflexivity].
  cbn [bind].
  assert (H1 : TwitterTool.start_date p' = Some s /\ TwitterTool.end_date p' = Some e).
  { unfold TwitterTool.mk_params in Hp.
    repeat match type of Hp with
    | context [bind ?m _] => destruct m; cbn [bind] in Hp; [|discriminate Hp]
    end.
    injection Hp as <-. split; reflexivity. }
  destruct H1 as [H1 H2]. rewrite (Hv p' H1 H2). reflexivity.
Qed.

(** C8 witness: start 2024-05-01, end 2024-01-01. *)
Lemma validate_dates_rejects_reversed_witness :
  let p := TwitterTool.mk_TwitterSearchParams "q" None (Some 1%Z) (Some 1%Z) (Some 0%Z)
             (Some 5%Z) (Some "2024-05-01") (Some "2024-01-01") None None in
  TwitterTool.strptime_ymd "2024-05-01" = Some Inputs.may_1
  /\ TwitterTool.strptime_ymd "2024-01-01" = Some Inputs.jan_1
  /\ TwitterTool.validate_dates p = Raise ValueError.
Proof.
  intro p. split; [reflexivity|]. split; [reflexivity|].
  apply (validate_dates_rejects_reversed Inputs.no_datetime "q" "d" Inputs.may_1
           Inputs.jan_1 p "2024-05-01" "2024-01-01" Inputs.may_1 Inputs.jan_1);
    reflexivity.
Defined.


(** * Further properties of the code *)

(** ** Shared lemmas *)
Module ExtraLemmas.

(** Steps through a hypothesis [m = Ok _] where [m] is a chain of binds,
    conditionals and matches on results. *)
Ltac res_crunch H :=
  repeat (cbv beta iota zeta in H;
    match type of H with
    | Raise _ = Ok _ => discriminate H
    | bind ?m _ = _ => let E := fresh "E" in destruct m eqn:E; cbn [bind] in H
    | (if ?b then _ else _) = _ => let E := fresh "E" in destruct b eqn:E
    | (match ?m with Ok _ => _ | Raise _ => _ end) = _ =>
        let E := fresh "E" in destruct m eqn:E
    end).

Lemma retry3_first_ok {A} (body : nat -> result A) (fallback : A) (i : nat) (a : A) :
  (i < 3)%nat -> (forall j, (j < i)%nat -> is_raise (body j) = true) -> body i = Ok a ->
  retry body fallback 3 = (Some a, S i).
Proof.
  intros Hi Hj Ha. unfold retry. cbn [retry_from Nat.ltb Nat.leb Nat.sub].
  destruct i as [|[|[|i]]]; [| | |lia].
  - rewrite Ha. reflexivity.
  - destruct (body 0%nat) eqn:E0; [specialize (Hj 0%nat); rewrite E0 in Hj; discriminate Hj; lia|].
    rewrite Ha. reflexivity.
  - destruct (body 0%nat) eqn:E0; [specialize (Hj 0%nat); rewrite E0 in Hj; discriminate Hj; lia|].
    destruct (body 1%nat) eqn:E1; [specialize (Hj 1%nat); rewrite E1 in Hj; discriminate Hj; lia|].
    rewrite Ha. reflexivity.
Qed.

Lemma map_result_in {A B} (f : A -> result B) (xs : list A) (ys : list B) :
  map_result f xs = Ok ys -> forall y, In y ys -> exists x, In x xs /\ f x = Ok y.
Proof.
  revert ys; induction xs as [|x xs IH]; intros ys H y Hy; cbn [map_result] in H.
  - injection H as <-. destruct Hy.
  - destruct (f x) as [y'|e] eqn:Ex; cbn [bind] in H; [|discriminate H].
    destruct (map_result f xs) as [ys'|e] eqn:Exs; cbn [bind] in H; [|discriminate H].
    injection H as <-. destruct Hy as [<-|Hy].
    + exists x. split; [left; reflexivity|exact Ex].
    + destruct (IH ys' eq_refl y Hy) as [x' [Hx' Hf]]. exists x'. split; [right; exact Hx'|exact Hf].
Qed.

Lemma map_result_raise {A B} (f : A -> result B) (xs : list A) (x : A) (e : exc) :
  In x xs -> f x = Raise e -> is_raise (map_result f xs) = true.
Proof.
  induction xs as [|x' xs IH]; intros Hin Hx; [destruct Hin|].
  cbn [map_result]. destruct Hin as [<-|Hin].
  - rewrite Hx. reflexivity.
  - destruct (f x'); cbn [bind]; [|reflexivity].
    specialize (IH Hin Hx).
    destruct (map_result f xs); cbn [bind]; [discriminate IH|reflexivity].
Qed.

End ExtraLemmas.

Module PlanLemmas.
Import ExtraLemmas.

Lemma section_field_values (v : option pyval) (x : option string) :
  opt_str_field validate_section v = Ok x ->
  x = None \/ x = Some "" \/ x = Some "top" \/ x = Some "latest".
Proof.
  destruct v as [[| | | |s| | | |]|]; cbn [opt_str_field]; intro H; try discriminate H;
    injection H as <-; cbn [validate_section]; auto.
  destruct (String.eqb s "") eqn:E1; cbn [negb andb].
  - apply String.eqb_eq in E1. subst. auto.
  - unfold str_in; cbn [existsb].
    destruct (String.eqb s "top") eqn:Et; [apply String.eqb_eq in Et; subst; auto|].
    destruct (String.eqb s "latest") eqn:El; [apply String.eqb_eq in El; subst; auto|].
    cbn. auto.
Qed.

Lemma language_field_values (v : option pyval) (x : option string) :
  opt_str_field validate_language v = Ok x ->
  x = None \/ x = Some "" \/ exists s, x = Some s /\ String.length s = 2%nat.
Proof.
  destruct v as [[| | | |s| | | |]|]; cbn [opt_str_field]; intro H; try discriminate H;
    injection H as <-; cbn [validate_language]; auto.
  destruct (String.eqb s "") eqn:E1; cbn [negb andb].
  - apply String.eqb_eq in E1. subst. auto.
  - destruct (Nat.eqb (String.length s) 2) eqn:E2; cbn [negb].
    + apply Nat.eqb_eq in E2. right; right. exists s. auto.
    + right; right. exists "ja". auto.
Qed.

Definition query_normalized (q : TwitterSearchQuery) : Prop :=
  (section q = None \/ section q = Some "" \/ section q = Some "top" \/ section q = Some "latest")
  /\ (language q = None \/ language q = Some ""
      \/ exists s, language q = Some s /\ String.length s = 2%nat).

Lemma mk_twitter_query_normalized (datetime_of : pyval -> option date) (v : pyval)
    (q : TwitterSearchQuery) :
  mk_twitter_query datetime_of v = Ok q -> query_normalized q.
Proof.
  intro H. destruct v as [| | | | | | | |kvs]; try discriminate H.
  unfold mk_twitter_query in H.
  destruct (Py.lookup "query" kvs), (Py.lookup "description" kvs); try discriminate H.
  res_crunch H. injection H as <-. split; cbn [section language].
  - eapply section_field_values; eassumption.
  - eapply language_field_values; eassumption.
Qed.

Lemma mk_search_queries_twitter (datetime_of : pyval -> option date) (v : pyval)
    (a : SearchQueries) :
  mk_search_queries datetime_of v = Ok a ->
  exists tw, map_result (mk_twitter_query datetime_of) tw = Ok (twitter a).
Proof.
  unfold mk_search_queries. intro H. res_crunch H.
  destruct (kw_lookup "twitter" _) as [[| | | | | | |tw|]|]; try discriminate H;
  destruct (kw_lookup "youtube" _) as [[| | | | | | |yt|]|]; try discriminate H.
  res_crunch H. injection H as <-. exists tw. assumption.
Qed.

Lemma generate_attempt_normalized (safe_load : string -> result pyval)
    (datetime_of : pyval -> option date) (dd : string * string) (reply : llm_reply)
    (a : SearchQueries) :
  generate_attempt safe_load datetime_of dd reply = Ok a -> Forall query_normalized (twitter a).
Proof.
  unfold generate_attempt. intro H. res_crunch H.
  apply mk_search_queries_twitter in H as [tw Htw].
  apply Forall_forall. intros q Hq.
  destruct (map_result_in _ _ _ Htw q Hq) as [x [_ Hx]].
  exact (mk_twitter_query_normalized _ _ _ Hx).
Qed.

End PlanLemmas.

(** ** The retry loops *)

(** [analyze_multiple_texts] returns the analyses of the first attempt that
    succeeds: when attempts 0..i-1 fail and attempt i < 3 succeeds, it
    returns that attempt's result after exactly i+1 model invocations. *)
Theorem analyze_multiple_texts_first_success
    (safe_load : string -> result pyval) (float_of_str : string -> option float)
    (llm : nat -> llm_reply) (texts : list text_item) (target_person : option string)
    (i : nat) (rs : list SlanderAnalysisResult) :
  (i < 3)%nat ->
  (forall j, (j < i)%nat -> is_raise (analyze_attempt safe_load float_of_str (llm j)) = true) ->
  analyze_attempt safe_load float_of_str (llm i) = Ok rs ->
  analyze_multiple_texts safe_load float_of_str llm texts target_person = (Some rs, S i).
Proof.
  intros Hi Hj Hok. unfold analyze_multiple_texts.
  exact (ExtraLemmas.retry3_first_ok _ _ i rs Hi Hj Hok).
Qed.

(** Witness: the first invocation raises, the second replies
    "content_analyses: []". *)
Lemma analyze_multiple_texts_first_success_witness :
  analyze_multiple_texts Inputs.load_empty_analyses Inputs.no_float
    (MoreInputs.fails_once Inputs.empty_analyses_doc) Inputs.two_texts None
  = (Some [], 2%nat).
Proof.
  apply (analyze_multiple_texts_first_success _ _ _ _ _ 1 []).
  - lia.
  - intros j Hj. assert (j = 0%nat) as -> by lia. reflexivity.
  - reflexivity.
Defined.

(** [generate_queries] returns the plan of the first attempt that succeeds:
    when attempts 0..i-1 fail and attempt i < 3 succeeds, it returns that
    plan after exactly i+1 model invocations. *)
Theorem generate_queries_first_success
    (safe_load : string -> result pyval) (datetime_of : pyval -> option date)
    (llm : nat -> llm_reply) (natural_language_input : string)
    (default_dates : string * string) (i : nat) (plan : SearchQueries) :
  (i < 3)%nat ->
  (forall j, (j < i)%nat ->
     is_raise (generate_attempt safe_load datetime_of default_dates (llm j)) = true) ->
  generate_attempt safe_load datetime_of default_dates (llm i) = Ok plan ->
  generate_queries safe_load datetime_of llm natural_language_input default_dates
  = (Some plan, S i).
Proof.
  intros Hi Hj Hok. unfold generate_queries.
  exact (ExtraLemmas.retry3_first_ok _ _ i plan Hi Hj Hok).
Qed.

(** Witness: the first invocation raises, the second returns a plan with
    one Twitter query; the default dates are filled in. *)
Lemma generate_queries_first_success_witness :
  generate_queries MoreInputs.load_plan MoreInputs.parse_datetime
    (MoreInputs.fails_once MoreInputs.plan_doc) "topic" ("2024-04-01", "2024-05-01")
  = (Some (mk_SearchQueries
             [mk_TwitterSearchQuery "q" "d" None (Some (mk_date 2024 4 1))
                (Some (mk_date 2024 5 1)) None] []), 2%nat).
Proof.
  apply (generate_queries_first_success _ _ _ _ _ 1).
  - lia.
  - intros j Hj. assert (j = 0%nat) as -> by lia. reflexivity.
  - vm_compute. reflexivity.
Defined.

(** Every Twitter query of the plan returned by [generate_queries] is
    normalised: its section is None, "", "top" or "latest", and its language
    is None, "" or a two-character code; [generate_queries] always returns a
    plan. *)
Theorem generate_queries_plan_normalized
    (safe_load : string -> result pyval) (datetime_of : pyval -> option date)
    (llm : nat -> llm_reply) (natural_language_input : string)
    (default_dates : string * string) :
  exists plan n,
    generate_queries safe_load datetime_of llm natural_language_input default_dates
    = (Some plan, n)
    /\ Forall (fun q =>
         (section q = None \/ section q = Some "" \/ section q = Some "top"
          \/ section q = Some "latest")
         /\ (language q = None \/ language q = Some ""
             \/ exists s, language q = Some s /\ String.length s = 2%nat))
       (twitter plan).
Proof.
  destruct (RetryProofs.retry3_returns
              (fun attempt => generate_attempt safe_load datetime_of default_dates (llm attempt))
              (mk_SearchQueries [] [])) as [a [n [Hr [_ Ha]]]].
  exists a, n. split; [exact Hr|].
  destruct Ha as [->|[i [_ Hi]]]; [constructor|].
  exact (PlanLemmas.generate_attempt_normalized _ _ _ _ _ Hi).
Qed.

(** ** The fence-cleaning step *)

(** A string is left unchanged by the fence-cleaning step exactly when it
    contains no "```" marker and has no leading or trailing whitespace. *)
Theorem clean_yaml_response_fixpoint (s : string) :
  clean_yaml_response s = s <-> PyStr.contains fence s = false /\ PyStr.strip s = s.
Proof.
  split.
  - intro H. rewrite <- H. split; [apply CleanProofs.clean_fence_free|].
    unfold clean_yaml_response. apply CleanProofs.strip_idem.
  - intros [Hf Hs].
    assert (Hy : PyStr.contains fence_yaml s = false).
    { destruct (PyStr.contains fence_yaml s) eqn:E; [|reflexivity].
      apply (CleanProofs.contains_prefix_free fence "yaml") in E. congruence. }
    unfold clean_yaml_response, PyStr.replace. unfold fence_yaml, fence in *.
    rewrite (CleanProofs.replace_scan_absent _ _ _ Hy).
    rewrite (CleanProofs.replace_scan_absent _ _ _ Hf).
    exact Hs.
Qed.

(** ** TwitterSearchParams *)

(** The request sent by [search_tweets(query=q)], as main.py calls it:
    validation always passes, and the parameters sent are exactly query=q,
    min_retweets=1, min_likes=1, min_replies=0 and limit=5 (no section,
    dates, language or token); the tweets returned are those of the
    response. *)
Theorem search_tweets_default_request_params
    (int_of_json : pyval -> option Z) (bool_of_json : pyval -> option bool)
    (http : list (string * pyval) -> result pyval) (q : string) :
  TwitterResponse.search_tweets int_of_json bool_of_json http q
    None (Some 1%Z) (Some 1%Z) (Some 0%Z) None None None None
  = (let* data := http [("query", PStr q); ("min_retweets", PInt 1%Z);
                        ("min_likes", PInt 1%Z); ("min_replies", PInt 0%Z);
                        ("limit", PInt 5%Z)] in
     TwitterResponse.process_search_data int_of_json bool_of_json data).
Proof. reflexivity. Qed.

Module ResponseLemmas.
Import ExtraLemmas.

Lemma map_result_raise_inv {A B} (f : A -> result B) (xs : list A) (e : exc) :
  map_result f xs = Raise e -> exists x e', In x xs /\ f x = Raise e'.
Proof.
  induction xs as [|x xs IH]; cbn [map_result]; intro H; [discriminate H|].
  destruct (f x) as [y|e'] eqn:Ex; cbn [bind] in H.
  - destruct (map_result f xs) as [ys|e''] eqn:Exs; cbn [bind] in H; [discriminate H|].
    destruct (IH H) as [x' [e' [Hin Hx']]].
    exists x', e'. split; [right; exact Hin|exact Hx'].
  - exists x, e'. split; [left; reflexivity|exact Ex].
Qed.

(** The outcome of an all-or-nothing loop over a list of items. *)
Lemma all_or_nothing {A B} (f : A -> result B) (xs : list A) :
  Forall2 (fun x y => f x = Ok y)
    xs (match map_result f xs with Ok ys => ys | Raise _ => [] end)
  \/ ((match map_result f xs with Ok ys => ys | Raise _ => [] end) = []
      /\ exists x e, In x xs /\ f x = Raise e).
Proof.
  destruct (map_result f xs) as [ys|e] eqn:E.
  - left. apply map_result_forall2. exact E.
  - right. split; [reflexivity|]. exact (map_result_raise_inv f xs e E).
Qed.

Lemma collect_tweets_app (int_of_json : pyval -> option Z) (bool_of_json : pyval -> option bool)
    (xs ys : list pyval) :
  TwitterResponse.collect_tweets int_of_json bool_of_json (xs ++ ys)%list
  = (TwitterResponse.collect_tweets int_of_json bool_of_json xs
     ++ TwitterResponse.collect_tweets int_of_json bool_of_json ys)%list.
Proof.
  induction xs as [|x xs IH]; [reflexivity|].
  cbn [app TwitterResponse.collect_tweets].
  destruct (TwitterResponse.process_tweet_data int_of_json bool_of_json x); [|exact IH].
  rewrite IH. reflexivity.
Qed.

Lemma collect_tweets_filter (int_of_json : pyval -> option Z) (bool_of_json : pyval -> option bool)
    (xs : list pyval) :
  map Ok (TwitterResponse.collect_tweets int_of_json bool_of_json xs)
  = filter (fun r => negb (is_raise r))
      (map (TwitterResponse.process_tweet_data int_of_json bool_of_json) xs).
Proof.
  induction xs as [|x xs IH]; [reflexivity|].
  cbn [TwitterResponse.collect_tweets map filter].
  destruct (TwitterResponse.process_tweet_data int_of_json bool_of_json x); cbn [is_raise negb map].
  - rewrite IH. reflexivity.
  - exact IH.
Qed.

Lemma str_keys_lookup (kvs : list (pyval * pyval)) :
  Forall (fun kv => exists k, fst kv = PStr k) kvs ->
  exists kw, Py.str_keys kvs = Ok kw /\ forall k, kw_lookup k kw = Py.lookup k kvs.
Proof.
  induction 1 as [|[k v] kvs [k' Hk'] _ [kw [IH1 IH2]]]; [exists []; split; reflexivity|].
  cbn [fst] in Hk'. subst k. exists ((k', v) :: kw). split.
  - cbn [Py.str_keys]. rewrite IH1. reflexivity.
  - intro k. cbn [kw_lookup Py.lookup Py.is_str]. rewrite String.eqb_sym, IH2. reflexivity.
Qed.

End ResponseLemmas.

(** ** The tweets of a search response *)

(** A tweet whose processing raises is dropped from the results of
    [search_tweets] without affecting the tweets before or after it. *)
Theorem search_tweets_skips_failed_tweet
    (int_of_json : pyval -> option Z) (bool_of_json : pyval -> option bool)
    (xs : list pyval) (bad : pyval) (ys : list pyval) :
  is_raise (TwitterResponse.process_tweet_data int_of_json bool_of_json bad) = true ->
  TwitterResponse.collect_tweets int_of_json bool_of_json (xs ++ bad :: ys)%list
  = (TwitterResponse.collect_tweets int_of_json bool_of_json xs
     ++ TwitterResponse.collect_tweets int_of_json bool_of_json ys)%list.
Proof.
  intro Hbad. rewrite ResponseLemmas.collect_tweets_app.
  cbn [TwitterResponse.collect_tweets].
  destruct (TwitterResponse.process_tweet_data int_of_json bool_of_json bad);
    [discriminate Hbad|reflexivity].
Qed.

(** Witness: an empty tweet object (all defaults) followed by a string,
    which has no [.get]. *)
Lemma search_tweets_skips_failed_tweet_witness :
  TwitterResponse.collect_tweets MoreInputs.no_int MoreInputs.no_bool
    ([PDict []] ++ PStr "x" :: [])%list
  = (TwitterResponse.collect_tweets MoreInputs.no_int MoreInputs.no_bool [PDict []]
     ++ TwitterResponse.collect_tweets MoreInputs.no_int MoreInputs.no_bool [])%list.
Proof. apply search_tweets_skips_failed_tweet. reflexivity. Defined.

(** When the response's "results" is a list, [search_tweets] returns the
    tweets of the items whose processing succeeds, in the order of the
    items: read as outcomes, the tweets returned are the outcomes of
    processing the items one by one with the failed ones left out (so at
    most one tweet per item, and the k-th tweet comes from the k-th item
    that processes without error). *)
Theorem process_search_data_results
    (int_of_json : pyval -> option Z) (bool_of_json : pyval -> option bool)
    (kvs : list (pyval * pyval)) (xs : list pyval) :
  Py.lookup "results" kvs = Some (PList xs) ->
  exists ts, TwitterResponse.process_search_data int_of_json bool_of_json (PDict kvs) = Ok ts
  /\ map Ok ts
     = filter (fun r => negb (is_raise r))
         (map (TwitterResponse.process_tweet_data int_of_json bool_of_json) xs).
Proof.
  intro H. exists (TwitterResponse.collect_tweets int_of_json bool_of_json xs).
  split; [unfold TwitterResponse.process_search_data, Py.get; rewrite H; reflexivity|].
  apply ResponseLemmas.collect_tweets_filter.
Qed.

(** Witness: a response with an empty tweet object (all defaults), a string
    (which has no [.get], so its processing raises) and another empty
    object. *)
Lemma process_search_data_results_witness :
  exists ts, TwitterResponse.process_search_data MoreInputs.no_int MoreInputs.no_bool
               (PDict [(PStr "results", PList [PDict []; PStr "x"; PDict []])]) = Ok ts
  /\ map Ok ts
     = filter (fun r => negb (is_raise r))
         (map (TwitterResponse.process_tweet_data MoreInputs.no_int MoreInputs.no_bool)
            [PDict []; PStr "x"; PDict []]).
Proof.
  apply (process_search_data_results MoreInputs.no_int MoreInputs.no_bool
           [(PStr "results", PList [PDict []; PStr "x"; PDict []])] [PDict []; PStr "x"; PDict []]).
  reflexivity.
Defined.

(** ** YouTube *)

(** [search_videos] is all or nothing: for a search response whose "items"
    is a list, it returns one result per item, in order, each built from
    that item; or, when the processing of some item raises, no result at
    all. *)
Theorem search_videos_all_or_nothing (search_response : result pyval)
    (videos_list : pyval -> result pyval) (kvs : list (pyval * pyval)) (xs : list pyval) :
  search_response = Ok (PDict kvs) -> Py.lookup "items" kvs = Some (PList xs) ->
  Forall2 (fun x r => YouTubeTool.search_item videos_list x = Ok r)
    xs (YouTubeTool.search_videos search_response videos_list)
  \/ (YouTubeTool.search_videos search_response videos_list = []
      /\ exists x e, In x xs /\ YouTubeTool.search_item videos_list x = Raise e).
Proof.
  intros Hr Hi. unfold YouTubeTool.search_videos. rewrite Hr. cbn [bind].
  unfold Py.get. rewrite Hi. cbn [bind Py.iter].
  apply ResponseLemmas.all_or_nothing.
Qed.

(** Witness: a response with one video followed by an item without an
    "id", whose processing raises: no result at all. *)
Lemma search_videos_all_or_nothing_witness :
  Forall2 (fun x r => YouTubeTool.search_item MoreInputs.yt_videos x = Ok r)
    [MoreInputs.yt_item; PDict []]
    (YouTubeTool.search_videos
       (Ok (PDict [(PStr "items", PList [MoreInputs.yt_item; PDict []])]))
       MoreInputs.yt_videos)
  \/ (YouTubeTool.search_videos
        (Ok (PDict [(PStr "items", PList [MoreInputs.yt_item; PDict []])]))
        MoreInputs.yt_videos = []
      /\ exists x e, In x [MoreInputs.yt_item; PDict []]
                     /\ YouTubeTool.search_item MoreInputs.yt_videos x = Raise e).
Proof.
  apply (search_videos_all_or_nothing _ _
           [(PStr "items", PList [MoreInputs.yt_item; PDict []])]); reflexivity.
Defined.

(** [get_video_comments] is all or nothing: for a response whose "items" is
    a list, it returns one comment per thread, in order; or, when some
    thread lacks a field, no comment at all. *)
Theorem get_video_comments_all_or_nothing (comments_response : result pyval)
    (kvs : list (pyval * pyval)) (xs : list pyval) :
  comments_response = Ok (PDict kvs) -> Py.lookup "items" kvs = Some (PList xs) ->
  Forall2 (fun x c => YouTubeTool.comment_item x = Ok c)
    xs (YouTubeTool.get_video_comments comments_response)
  \/ (YouTubeTool.get_video_comments comments_response = []
      /\ exists x e, In x xs /\ YouTubeTool.comment_item x = Raise e).
Proof.
  intros Hr Hi. unfold YouTubeTool.get_video_comments. rewrite Hr. cbn [bind].
  unfold Py.get. rewrite Hi. cbn [bind Py.iter].
  apply ResponseLemmas.all_or_nothing.
Qed.

(** Witness: a response with one well-formed thread and one without a
    snippet. *)
Lemma get_video_comments_all_or_nothing_witness :
  Forall2 (fun x c => YouTubeTool.comment_item x = Ok c)
    [MoreInputs.yt_comment; PDict []]
    (YouTubeTool.get_video_comments
       (Ok (PDict [(PStr "items", PList [MoreInputs.yt_comment; PDict []])])))
  \/ (YouTubeTool.get_video_comments
        (Ok (PDict [(PStr "items", PList [MoreInputs.yt_comment; PDict []])])) = []
      /\ exists x e, In x [MoreInputs.yt_comment; PDict []]
                     /\ YouTubeTool.comment_item x = Raise e).
Proof.
  apply (get_video_comments_all_or_nothing _
           [(PStr "items", PList [MoreInputs.yt_comment; PDict []])]); reflexivity.
Defined.

(** ** main.py *)
Module MainLemmas.
Import MainApp.

Lemma search_phase_tweets (int_of_json : pyval -> option Z) (bool_of_json : pyval -> option bool)
    (http : list (string * pyval) -> result pyval) (qs : list TwitterSearchQuery) :
  exists ts, search_phase int_of_json bool_of_json http qs = map twitter_search_result ts.
Proof.
  induction qs as [|q qs [ts IH]]; [exists []; reflexivity|].
  unfold search_phase in *. cbn [flat_map]. rewrite IH.
  destruct (TwitterResponse.search_tweets _ _ _ _ _ _ _ _ _ _ _ _) as [ts0|e].
  - exists (ts0 ++ ts)%list. rewrite map_app. reflexivity.
  - exists ts. reflexivity.
Qed.

Lemma all_results_tweets (ts : list TwitterResponse.Tweet) (analyses : list SlanderAnalysisResult) :
  exists rs, all_results (map twitter_search_result ts) analyses = Ok rs
  /\ List.length rs = Nat.min (List.length ts) (List.length analyses)
  /\ forall i r, nth_error rs i = Some r ->
       exists t a, nth_error ts i = Some t /\ nth_error analyses i = Some a
       /\ ar_analysis r = a
       /\ item_get "source" (twitter_search_result t) = Some (ar_source r)
       /\ item_get "author" (twitter_search_result t) = Some (ar_author r)
       /\ item_get "text" (twitter_search_result t) = Some (ar_text r)
       /\ item_get "date" (twitter_search_result t) = Some (ar_date r).
Proof.
  revert analyses; induction ts as [|t ts IH]; intros analyses.
  - exists []. split; [reflexivity|]. split; [reflexivity|].
    intros [|i] r H; discriminate H.
  - destruct analyses as [|a analyses].
    + exists []. split; [reflexivity|]. split; [reflexivity|].
      intros [|i] r H; discriminate H.
    + destruct (IH analyses) as [rs [Hrs [Hlen Hnth]]].
      unfold all_results in *. cbn [map combine map_result].
      eexists. split.
      * cbn [bind]. unfold item_getitem at 1 2 3 4. cbn. rewrite Hrs. reflexivity.
      * split; [cbn [List.length]; rewrite Hlen; reflexivity|].
        intros [|i] r H.
        -- injection H as <-. exists t, a. repeat split.
        -- cbn [nth_error] in H. destruct (Hnth i r H) as [t' [a' Hx]].
           exists t', a'. exact Hx.
Qed.

Lemma degraded_combined_zero (safe_load : string -> result pyval)
    (sum_floats : list float -> float)
    (Hz : forall k, sum_floats (repeat 0%float k) = 0%float) (n : nat) (reply : llm_reply) :
  exists oa, fst (calculate_overall_analysis safe_load sum_floats
                    (repeat degraded_result n) reply) = Ok oa
             /\ combined_risk_score oa = 0%float.
Proof.
  destruct n as [|n]; [eexists; split; reflexivity|].
  assert (Hm : forall f : SlanderAnalysisResult -> float, f degraded_result = 0%float ->
                 map f (repeat degraded_result (S n)) = repeat 0%float (S n)).
  { intros f Hf. rewrite map_repeat, Hf. reflexivity. }
  assert (Hc : combined_risk sum_floats (repeat degraded_result (S n)) = Ok 0%float).
  { rewrite OverallProofs.combined_risk_value by discriminate. cbv zeta.
    rewrite (Hm confidence_score eq_refl), (Hm risk_score eq_refl), Hz, repeat_length.
    replace (0 =? 0)%float with true by reflexivity.
    rewrite FloatProofs.zero_div_len. reflexivity. }
  destruct (OverallProofs.calculate_overall_analysis_score safe_load sum_floats
              (repeat degraded_result (S n)) reply 0%float ltac:(discriminate) Hc)
    as [oa [H1 H2]].
  exists oa. rewrite H1. split; [reflexivity|exact H2].
Qed.

End MainLemmas.

(** main.py pairs the search results with their analyses: [all_results] is
    built without error from the Twitter search results, has
    min(#results, #analyses) entries, and its i-th entry carries the i-th
    analysis together with the source, author, text and date of the i-th
    search result. *)
Theorem all_results_pairs_search_results
    (int_of_json : pyval -> option Z) (bool_of_json : pyval -> option bool)
    (http : list (string * pyval) -> result pyval) (qs : list TwitterSearchQuery)
    (analyses : list SlanderAnalysisResult) :
  let sr := MainApp.search_phase int_of_json bool_of_json http qs in
  exists rs, MainApp.all_results sr analyses = Ok rs
  /\ List.length rs = Nat.min (List.length sr) (List.length analyses)
  /\ forall i r, nth_error rs i = Some r ->
       exists it a, nth_error sr i = Some it /\ nth_error analyses i = Some a
       /\ MainApp.ar_analysis r = a
       /\ MainApp.item_get "source" it = Some (MainApp.ar_source r)
       /\ MainApp.item_get "author" it = Some (MainApp.ar_author r)
       /\ MainApp.item_get "text" it = Some (MainApp.ar_text r)
       /\ MainApp.item_get "date" it = Some (MainApp.ar_date r).
Proof.
  intro sr. destruct (MainLemmas.search_phase_tweets int_of_json bool_of_json http qs) as [ts Hts].
  subst sr. rewrite Hts.
  destruct (MainLemmas.all_results_tweets ts analyses) as [rs [Hrs [Hlen Hnth]]].
  exists rs. split; [exact Hrs|]. split; [rewrite length_map; exact Hlen|].
  intros i r Hr. destruct (Hnth i r Hr) as [t [a [Ht [Ha Hx]]]].
  exists (MainApp.twitter_search_result t), a.
  split; [rewrite nth_error_map, Ht; reflexivity|]. split; [exact Ha|]. exact Hx.
Qed.

(** When every analysis attempt fails, main.py still shows one entry per
    search result, each with the degraded analysis, and an overall risk
    score of 0.0, displayed green, whatever the model replies to the overall
    analysis (for a [sum] that adds up zeros to 0.0, as both CPython
    algorithms do). *)
Theorem main_analysis_all_attempts_fail
    (safe_load : string -> result pyval) (float_of_str : string -> option float)
    (sum_floats : list float -> float)
    (int_of_json : pyval -> option Z) (bool_of_json : pyval -> option bool)
    (http : list (string * pyval) -> result pyval) (qs : list TwitterSearchQuery)
    (llm : nat -> llm_reply) (target_person : option string) :
  (forall k, sum_floats (repeat 0%float k) = 0%float) ->
  (forall i, (i < 3)%nat -> is_raise (analyze_attempt safe_load float_of_str (llm i)) = true) ->
  let sr := MainApp.search_phase int_of_json bool_of_json http qs in
  exists analyses rs,
    analyze_multiple_texts safe_load float_of_str llm sr target_person = (Some analyses, 3%nat)
    /\ MainApp.all_results sr analyses = Ok rs
    /\ List.length rs = List.length sr
    /\ Forall (fun r => MainApp.ar_analysis r = degraded_result) rs
    /\ forall reply, exists oa,
         fst (calculate_overall_analysis safe_load sum_floats analyses reply) = Ok oa
         /\ combined_risk_score oa = 0%float
         /\ MainApp.risk_color (combined_risk_score oa) = "green".
Proof.
  intros Hz Hfail sr.
  assert (Ha : analyze_multiple_texts safe_load float_of_str llm sr target_person
               = (Some (map (fun _ => degraded_result) sr), 3%nat)).
  { unfold analyze_multiple_texts. apply RetryProofs.retry3_all_fail. exact Hfail. }
  destruct (all_results_pairs_search_results int_of_json bool_of_json http qs
              (map (fun _ => degraded_result) sr)) as [rs [Hrs [Hlen Hnth]]].
  fold sr in Hrs, Hlen, Hnth.
  exists (map (fun _ => degraded_result) sr), rs.
  split; [exact Ha|]. split; [exact Hrs|].
  split; [rewrite Hlen, length_map; apply Nat.min_id|].
  split.
  - apply Forall_forall. intros r Hr.
    destruct (In_nth_error _ _ Hr) as [i Hi].
    destruct (Hnth i r Hi) as [it [a [Hit [Hai [Har _]]]]].
    rewrite nth_error_map, Hit in Hai. cbn in Hai. injection Hai as <-. exact Har.
  - intro reply.
    assert (Hrep : map (fun _ => degraded_result) sr = repeat degraded_result (List.length sr)).
    { clear. induction sr as [|x sr IH]; [reflexivity|]. cbn. rewrite IH. reflexivity. }
    rewrite Hrep.
    destruct (MainLemmas.degraded_combined_zero safe_load sum_floats Hz (List.length sr) reply)
      as [oa [Hoa Hz0]].
    exists oa. split; [exact Hoa|]. split; [exact Hz0|].
    rewrite Hz0. reflexivity.
Qed.

(** Witness: one query whose search returns one tweet, a model that always
    raises, the summation of CPython 3.12. *)
Lemma main_analysis_all_attempts_fail_witness :
  exists analyses rs,
    analyze_multiple_texts Inputs.no_yaml Inputs.no_float (fun _ => InvokeRaises)
      (MainApp.search_phase MoreInputs.no_int MoreInputs.no_bool MoreInputs.one_tweet_http
         [mk_TwitterSearchQuery "q" "d" None None None None])
      None = (Some analyses, 3%nat)
    /\ MainApp.all_results
         (MainApp.search_phase MoreInputs.no_int MoreInputs.no_bool MoreInputs.one_tweet_http
            [mk_TwitterSearchQuery "q" "d" None None None None])
         analyses = Ok rs
    /\ List.length rs = List.length
         (MainApp.search_phase MoreInputs.no_int MoreInputs.no_bool MoreInputs.one_tweet_http
            [mk_TwitterSearchQuery "q" "d" None None None None])
    /\ Forall (fun r => MainApp.ar_analysis r = degraded_result) rs
    /\ forall reply, exists oa,
         fst (calculate_overall_analysis Inputs.no_yaml Py.sum_neumaier analyses reply) = Ok oa
         /\ combined_risk_score oa = 0%float
         /\ MainApp.risk_color (combined_risk_score oa) = "green".
Proof.
  apply (main_analysis_all_attempts_fail Inputs.no_yaml Inputs.no_float Py.sum_neumaier
           MoreInputs.no_int MoreInputs.no_bool MoreInputs.one_tweet_http
           [mk_TwitterSearchQuery "q" "d" None None None None] (fun _ => InvokeRaises) None).
  - exact FloatProofs.sum_neumaier_zeros.
  - intros; reflexivity.
Defined.

(** ** SlanderAnalyzer *)

(** Keys besides the three fields of an analysis (such as content_index or
    language), and the order of the keys, are ignored: two entries with
    string keys whose risk_score, context_analysis and confidence_score
    entries agree give the same outcome. *)
Theorem mk_slander_result_ignores_extra_keys (float_of_str : string -> option float)
    (kvs1 kvs2 : list (pyval * pyval)) :
  Forall (fun kv => exists k, fst kv = PStr k) kvs1 ->
  Forall (fun kv => exists k, fst kv = PStr k) kvs2 ->
  Py.lookup "risk_score" kvs1 = Py.lookup "risk_score" kvs2 ->
  Py.lookup "context_analysis" kvs1 = Py.lookup "context_analysis" kvs2 ->
  Py.lookup "confidence_score" kvs1 = Py.lookup "confidence_score" kvs2 ->
  mk_slander_result float_of_str (PDict kvs1) = mk_slander_result float_of_str (PDict kvs2).
Proof.
  intros H1 H2 Hr Hc Hf.
  destruct (ResponseLemmas.str_keys_lookup kvs1 H1) as [kw1 [E1 L1]].
  destruct (ResponseLemmas.str_keys_lookup kvs2 H2) as [kw2 [E2 L2]].
  unfold mk_slander_result, Py.kwargs. rewrite E1, E2. cbn [bind].
  rewrite !L1, !L2, Hr, Hc, Hf. reflexivity.
Qed.

(** Witness: an entry with the content_index and language keys the analysis
    prompt asks for, and the same three fields in another order. *)
Lemma mk_slander_result_ignores_extra_keys_witness :
  mk_slander_result Inputs.no_float
    (PDict [(PStr "content_index", PInt 1); (PStr "language", PStr "ja");
            (PStr "risk_score", PFloat 0.5); (PStr "context_analysis", PStr "x");
            (PStr "confidence_score", PFloat 1)])
  = mk_slander_result Inputs.no_float
      (PDict [(PStr "confidence_score", PFloat 1); (PStr "risk_score", PFloat 0.5);
              (PStr "context_analysis", PStr "x")]).
Proof.
  apply mk_slander_result_ignores_extra_keys;
    try (repeat constructor; eexists; reflexivity); reflexivity.
Defined.

(** One malformed analysis rejects the whole batch: when an entry of
    content_analyses fails validation, the attempt of
    [analyze_multiple_texts] raises (and is retried), even if every other
    entry is valid. *)
Theorem analyze_attempt_rejects_malformed_entry
    (safe_load : string -> result pyval) (float_of_str : string -> option float)
    (reply : llm_reply) (items : list pyval) (x : pyval) :
  content_analyses_of safe_load reply = Ok items -> In x items ->
  is_raise (mk_slander_result float_of_str x) = true ->
  is_raise (analyze_attempt safe_load float_of_str reply) = true.
Proof.
  intros Hc Hx Hm. unfold analyze_attempt. rewrite Hc. cbn [bind].
  destruct (mk_slander_result float_of_str x) as [y|e] eqn:E; [discriminate Hm|].
  exact (ExtraLemmas.map_result_raise _ _ _ _ Hx E).
Qed.

(** Witness: a reply whose first entry is valid and whose second entry has
    a risk score only. *)
Lemma analyze_attempt_rejects_malformed_entry_witness :
  mk_slander_result Inputs.no_float MoreInputs.good_entry
  = Ok (mk_SlanderAnalysisResult 0.5 "x" 1)
  /\ is_raise (analyze_attempt MoreInputs.load_malformed Inputs.no_float
                 (Reply MoreInputs.malformed_doc)) = true.
Proof.
  split; [reflexivity|].
  apply (analyze_attempt_rejects_malformed_entry _ _ _
           [MoreInputs.good_entry; MoreInputs.malformed_entry] MoreInputs.malformed_entry).
  - vm_compute. reflexivity.
  - right; left; reflexivity.
  - reflexivity.
Defined.

(** A narrative document without the pattern_analysis and cross_references
    keys gives the "No pattern analysis available." and "No
    cross-reference analysis available." texts, with the combined score and
    one model invocation. *)
Theorem calculate_overall_analysis_default_narrative
    (safe_load : string -> result pyval) (sum_floats : list float -> float)
    (results : list SlanderAnalysisResult) (c : string) (kvs : list (pyval * pyval)) :
  results <> [] -> clean_yaml_response c <> "" ->
  safe_load (clean_yaml_response c) = Ok (PDict kvs) -> kvs <> [] ->
  Py.lookup "pattern_analysis" kvs = None -> Py.lookup "cross_references" kvs = None ->
  exists w, combined_risk sum_floats results = Ok w
  /\ calculate_overall_analysis safe_load sum_floats results (Reply c)
     = (Ok (mk_OverallAnalysis w "No pattern analysis available."
              "No cross-reference analysis available."), 1%nat).
Proof.
  intros Hne Hc Hl Hk Hp Hx.
  destruct (OverallProofs.combined_risk_ok sum_floats results Hne) as [w Hw].
  exists w. split; [exact Hw|].
  destruct results as [|r rs]; [congruence|].
  unfold calculate_overall_analysis. rewrite Hw.
  assert (Hc0 : String.eqb c "" = false).
  { apply String.eqb_neq. intros ->. apply Hc. reflexivity. }
  assert (Hc1 : String.eqb (clean_yaml_response c) "" = false) by (apply String.eqb_neq; exact Hc).
  unfold narrative_attempt, response_content. rewrite Hc0. cbn [bind].
  rewrite Hc1, Hl. cbn [bind].
  destruct kvs as [|kv kvs]; [congruence|]. cbn [Py.truthy negb].
  unfold Py.get. rewrite Hp, Hx. reflexivity.
Qed.

(** Witness: the document "{other: x}". *)
Lemma calculate_overall_analysis_default_narrative_witness :
  exists w, combined_risk Py.sum_fold Inputs.one_result = Ok w
  /\ calculate_overall_analysis MoreInputs.load_other Py.sum_fold Inputs.one_result
       (Reply MoreInputs.other_doc)
     = (Ok (mk_OverallAnalysis w "No pattern analysis available."
              "No cross-reference analysis available."), 1%nat).
Proof.
  apply (calculate_overall_analysis_default_narrative _ _ _ _ [(PStr "other", PStr "x")]);
    try reflexivity; discriminate.
Defined.

(** ** QueryGenerator *)


